(** * Sliding-window pattern search of the crypto pattern dashboard

    A shallow embedding of [find_similar_patterns] (src/maincode.py) and of
    the library behaviour it relies on: Python slices and positional lookup,
    [numpy.corrcoef] on binary64 numbers, [list.sort] with a key and
    [reverse=True], a [dict] used as a set of days, and [strftime]; of the
    same function as a program on a store of lists and dicts; and of
    [create_figure] and [update_chart], which call it. *)

From Stdlib Require Import ZArith List Floats Sorting.Sorted.
From stdpp Require Import gmap strings list sorting pretty.
Import ListNotations.

Local Open Scope Z_scope.

(** ** Python exceptions and results *)

Inductive PyError : Type :=
  | IndexError            (* positional indexer out of bounds *)
  | ValueError            (* array shapes that do not match *)
  | NotImplementedError   (* strftime on a year [datetime] does not have *)
  | AttributeError.       (* a method called on an object without it *)

Inductive PyResult (A : Type) : Type :=
  | Ok (a : A)
  | Raise (e : PyError).
Arguments Ok {A} a.
Arguments Raise {A} e.

Definition py_bind {A B} (m : PyResult A) (k : A -> PyResult B) : PyResult B :=
  match m with
  | Ok a => k a
  | Raise e => Raise e
  end.

Notation "'do' x <- m ; k" := (py_bind m (fun x => k))
  (at level 10, x name, m at level 100, k at level 200).

(** ** Positional access, as [Series.iloc] does it *)

Module Iloc.

(** [slice.indices]: a negative bound counts from the end, and both bounds
    are clamped to the sequence. *)
Definition clamp (len k : Z) : Z :=
  if k <? 0 then Z.max (k + len) 0 else Z.min k len.

(** [s.iloc[start:stop]] *)
Definition slice {A} (l : list A) (start stop : Z) : list A :=
  let len := Z.of_nat (length l) in
  let lo := clamp len start in
  let hi := clamp len stop in
  firstn (Z.to_nat (hi - lo)) (skipn (Z.to_nat lo) l).

(** [s.iloc[start:]] *)
Definition slice_from {A} (l : list A) (start : Z) : list A :=
  skipn (Z.to_nat (clamp (Z.of_nat (length l)) start)) l.

(** [s.iloc[k]]: a negative position counts from the end, a position
    outside the sequence raises [IndexError]. *)
Definition get {A} (l : list A) (k : Z) : PyResult A :=
  let len := Z.of_nat (length l) in
  let k' := if k <? 0 then k + len else k in
  if (0 <=? k') && (k' <? len) then
    match l !! Z.to_nat k' with
    | Some a => Ok a
    | None => Raise IndexError
    end
  else Raise IndexError.

End Iloc.

(** [range(n)] *)
Definition range (n : Z) : list Z := seqZ 0 n.

(** ** The data frame *)

(** A row of the frame built by [fetch_ohlcv], reduced to the two columns the
    search reads: the timestamp in milliseconds since the epoch (what the
    exchange delivers and [pd.to_datetime(unit="ms")] converts) and the
    closing price. *)
Record Bar : Type := mkBar { timestamp : Z; close : float }.

Definition DataFrame : Type := list Bar.

Definition col_close (df : DataFrame) : list float := map close df.
Definition col_timestamp (df : DataFrame) : list Z := map timestamp df.

(** ** [ts.strftime("%Y-%m-%d")] *)

Module Strftime.

Definition ms_per_day : Z := 86400000.

(** Days since 1970-01-01 of a naive timestamp. *)
Definition day_number (ts : Z) : Z := ts / ms_per_day.

(** Proleptic Gregorian date of a day number: (year, month, day). *)
Definition civil (z0 : Z) : Z * Z * Z :=
  let z := z0 + 719468 in
  let era := z / 146097 in
  let doe := z - era * 146097 in
  let yoe := (doe - doe / 1460 + doe / 36524 - doe / 146096) / 365 in
  let doy := doe - (365 * yoe + yoe / 4 - yoe / 100) in
  let mp := (5 * doy + 2) / 153 in
  let d := doy - (153 * mp + 2) / 5 + 1 in
  let m := if mp <? 10 then mp + 3 else mp - 9 in
  let y := yoe + era * 400 + (if m <=? 2 then 1 else 0) in
  (y, m, d).

Definition digit (d : Z) : string :=
  String (Ascii.ascii_of_nat (48 + Z.to_nat (d mod 10))) EmptyString.

Definition pad2 (n : Z) : string := digit (n / 10) +:+ digit n.

(** The text of the date: the year as the C library prints it, without
    padding, then month and day on two digits. *)
Definition ymd (ts : Z) : string :=
  let '(y, m, d) := civil (day_number ts) in
  pretty y +:+ "-" +:+ pad2 m +:+ "-" +:+ pad2 d.

(** The years a [datetime] has. *)
Definition supported (ts : Z) : bool :=
  let '(y, _, _) := civil (day_number ts) in
  (1 <=? y) && (y <=? 9999).

(** [ts.strftime("%Y-%m-%d")]: the timestamp is first turned into a
    [datetime], and outside the years 1 to 9999 that fails with
    [NotImplementedError]. *)
Definition strftime (ts : Z) : PyResult string :=
  if supported ts then Ok (ymd ts) else Raise NotImplementedError.

End Strftime.

(** ** [np.corrcoef(x, y)[0, 1]] on binary64

    numpy is not part of the repository: what follows renders the steps of
    [corrcoef] (the mean, the centring, the product of the rows, the scale,
    the two divisions and the clip), each operation rounded to binary64.
    The shape of the outcome is numpy's: a [ValueError] on rows of unequal
    length, a NaN when a standard deviation is 0, a number clipped to the
    range from -1 to 1 otherwise. Its last bits need not be: numpy adds
    rows of eight and more elements in pairs of blocks, and the product of
    the rows is left to a BLAS that may fuse a multiplication with the
    addition after it; ten times 0.1 add up to 0.99999999999999989 from
    left to right and to 1.0 in numpy. The properties proved below of the
    search hold for whatever numbers the scorer gives; where a frame is
    evaluated, the sums are exact. *)

Module Np.

(** [add.reduce]: the sum starts from the first element; the empty sum
    is 0. Terms are added left to right. *)
Definition sum (l : list float) : float :=
  match l with
  | [] => 0%float
  | x :: r => fold_left PrimFloat.add r x
  end.

Definition of_Z (n : Z) : float := PrimFloat.of_uint63 (Uint63.of_Z n).

Definition mean (l : list float) : float :=
  PrimFloat.div (sum l) (of_Z (Z.of_nat (length l))).

(** [X -= avg[:, None]] on one row *)
Definition center (l : list float) : list float :=
  let avg := mean l in map (fun x => PrimFloat.sub x avg) l.

(** One entry of [dot(X, X.T)], every product and every sum rounded. *)
Definition dot (x y : list float) : float :=
  sum (map (fun p => PrimFloat.mul (fst p) (snd p)) (combine x y)).

(** [np.clip(c, lo, hi)]; a NaN stays a NaN. *)
Definition clip (c lo hi : float) : float :=
  if PrimFloat.ltb c lo then lo
  else if PrimFloat.ltb hi c then hi
  else c.

(** [cov] with its default [ddof = 1] scales by [1 / (N - 1)], and by
    [1 / 0.0] when [N - 1 <= 0]; [corrcoef] then divides entry [0, 1] by
    the standard deviation of the first row, then by that of the second,
    and clips. *)
Definition corr01 (x y : list float) : float :=
  let n := Z.of_nat (length x) in
  let fact := if n - 1 <=? 0 then 0%float else of_Z (n - 1) in
  let scale := PrimFloat.div 1%float fact in
  let X := center x in
  let Y := center y in
  let c00 := PrimFloat.mul (dot X X) scale in
  let c01 := PrimFloat.mul (dot X Y) scale in
  let c11 := PrimFloat.mul (dot Y Y) scale in
  let stddev0 := PrimFloat.sqrt c00 in
  let stddev1 := PrimFloat.sqrt c11 in
  clip (PrimFloat.div (PrimFloat.div c01 stddev0) stddev1) (-1)%float 1%float.

(** Stacking two rows of different lengths raises [ValueError]. *)
Definition corrcoef01 (x y : list float) : PyResult float :=
  if Nat.eqb (length x) (length y) then Ok (corr01 x y) else Raise ValueError.

End Np.

(** ** [list.sort(key=..., reverse=True)] *)

Section list_sort.
Context {A : Type} (key : A -> float).

(** Keys are compared with [<] only. [x] goes in front of the first element
    whose key is not below its own. *)
Fixpoint insert_lt (x : A) (l : list A) : list A :=
  match l with
  | [] => [x]
  | y :: l' =>
      if PrimFloat.ltb (key y) (key x) then y :: insert_lt x l'
      else x :: y :: l'
  end.

(** The stable ascending sort. *)
Definition sort_stable (l : list A) : list A := fold_right insert_lt [] l.

(** [reverse=True] reverses the list, sorts it stably in ascending order
    and reverses the outcome, so that elements with equal keys keep their
    original order. On keys that are all numbers every stable sort gives
    this list, CPython's included. With a NaN among the keys [<] is no
    order, the outcome depends on which comparisons are made, and CPython,
    which looks for runs and inserts by bisection, can leave another
    arrangement of the same elements than the linear insertion here. On a
    list in which each comparison of neighbours is false, CPython finds one
    run and changes nothing, and neither does [sort_reverse]: the lists
    with a NaN key evaluated below are of that kind. What is proved of
    other lists with a NaN key uses only that the sort rearranges the list
    it is given. *)
Definition sort_reverse (l : list A) : list A := rev (sort_stable (rev l)).
End list_sort.

(** The order the ascending pass leaves behind when the elements come with
    positions [pos] that decrease along the list sorted: keys go up, and of
    two elements with equal keys the one from further back comes first. *)
Definition ascending_by {A : Type} (key : A -> float) (pos : A -> Z)
    (x y : A) : Prop :=
  PrimFloat.leb (key x) (key y) = true /\
  (PrimFloat.ltb (key x) (key y) = false -> pos y < pos x).

(** ** The search *)

(** A tuple [(corr, i, timestamp)] of the list [similarities]. *)
Definition Cand : Type := float * Z * Z.

Definition cand_corr (c : Cand) : float := c.1.1.
Definition cand_idx (c : Cand) : Z := c.1.2.
Definition cand_ts (c : Cand) : Z := c.2.

(** The day under which a candidate is recorded in [picked], when
    [strftime] gives one. *)
Definition cand_day (c : Cand) : string := Strftime.ymd (cand_ts c).

(** One turn of the scoring loop, for start index [i]. *)
Definition score_step (df : DataFrame) (current : list float) (window : Z)
    (similarities : list Cand) (i : Z) : PyResult (list Cand) :=
  let past := Iloc.slice (col_close df) i (i + window) in
  if Z.of_nat (length past) <? window then Ok similarities
  else
    do corr <- Np.corrcoef01 current past;
    do ts <- Iloc.get (col_timestamp df) (i + window);
    Ok (similarities ++ [(corr, i, ts)]).

Fixpoint score_loop (df : DataFrame) (current : list float) (window : Z)
    (similarities : list Cand) (idxs : list Z) : PyResult (list Cand) :=
  match idxs with
  | [] => Ok similarities
  | i :: idxs' =>
      do similarities' <- score_step df current window similarities i;
      score_loop df current window similarities' idxs'
  end.

(** The list [similarities] when the first loop is over. *)
Definition score_candidates (df : DataFrame) (window forward : Z)
    : PyResult (list Cand) :=
  let current := Iloc.slice_from (col_close df) (- window) in
  score_loop df current window []
    (range (Z.of_nat (length df) - window - forward)).

(** One turn of the selection loop: the new [picked] and [results]. *)
Definition select_step (picked : gmap string bool) (results : list Cand)
    (c : Cand) : PyResult (gmap string bool * list Cand) :=
  do day <- Strftime.strftime (cand_ts c);
  match picked !! day with
  | None => Ok (<[day := true]> picked, results ++ [c])
  | Some _ => Ok (picked, results)
  end.

(** The selection loop; the test on [len(results)] comes after the
    candidate at hand has been dealt with. *)
Fixpoint select_loop (top_n : Z) (picked : gmap string bool)
    (results : list Cand) (similarities : list Cand)
    : PyResult (list Cand) :=
  match similarities with
  | [] => Ok results
  | c :: rest =>
      do state <- select_step picked results c;
      if top_n <=? Z.of_nat (length state.2) then Ok state.2
      else select_loop top_n state.1 state.2 rest
  end.

Definition find_similar_patterns (df : DataFrame) (window forward top_n : Z)
    : PyResult (list Cand) :=
  do similarities <- score_candidates df window forward;
  let similarities := sort_reverse cand_corr similarities in
  select_loop top_n ∅ [] similarities.


(** ** The store

    The lists and the dict of a call are objects of a store, reached through
    references: [[]] and [{}] make a new object, [append], [sort] and the
    assignment to a key change the object they are called on, and what a
    call leaves in the store is there when the next call starts. *)

Module Store.

Inductive Obj : Type :=
  | List (items : list Cand)
  | Dict (entries : gmap string bool).

(** A computation takes the store as it is and leaves a result, or an
    exception, and the store as it has become. *)
Definition Py (A : Type) : Type :=
  gmap positive Obj -> PyResult A * gmap positive Obj.

Definition ret {A} (a : A) : Py A := fun h => (Ok a, h).

Definition bind {A B} (m : Py A) (k : A -> Py B) : Py B :=
  fun h =>
    match m h with
    | (Ok a, h') => k a h'
    | (Raise e, h') => (Raise e, h')
    end.

(** A step that does not touch the store. *)
Definition lift {A} (r : PyResult A) : Py A := fun h => (r, h).

(** [[]] and [{}]: the object is put at a reference not in use. *)
Definition new (o : Obj) : Py positive :=
  fun h => let r := fresh (dom h) in (Ok r, <[r := o]> h).

(** The items of a list, for a [for] loop over it. *)
Definition list_items (r : positive) : Py (list Cand) :=
  fun h =>
    match h !! r with
    | Some (List items) => (Ok items, h)
    | _ => (Raise AttributeError, h)
    end.

Definition list_len (r : positive) : Py Z :=
  fun h =>
    match h !! r with
    | Some (List items) => (Ok (Z.of_nat (length items)), h)
    | _ => (Raise AttributeError, h)
    end.

Definition list_append (r : positive) (c : Cand) : Py unit :=
  fun h =>
    match h !! r with
    | Some (List items) => (Ok tt, <[r := List (items ++ [c])]> h)
    | _ => (Raise AttributeError, h)
    end.

(** [l.sort(key=lambda x: x[0], reverse=True)], in place. *)
Definition list_sort (r : positive) : Py unit :=
  fun h =>
    match h !! r with
    | Some (List items) =>
        (Ok tt, <[r := List (sort_reverse cand_corr items)]> h)
    | _ => (Raise AttributeError, h)
    end.

(** [key not in d] *)
Definition dict_lacks (r : positive) (key : string) : Py bool :=
  fun h =>
    match h !! r with
    | Some (Dict entries) =>
        (Ok (match entries !! key with Some _ => false | None => true end),
         h)
    | _ => (Raise AttributeError, h)
    end.

(** [d[key] = value] *)
Definition dict_set (r : positive) (key : string) (value : bool) : Py unit :=
  fun h =>
    match h !! r with
    | Some (Dict entries) => (Ok tt, <[r := Dict (<[key := value]> entries)]> h)
    | _ => (Raise AttributeError, h)
    end.

Fixpoint score_loop (df : DataFrame) (current : list float) (window : Z)
    (similarities : positive) (idxs : list Z) : Py unit :=
  match idxs with
  | [] => ret tt
  | i :: idxs' =>
      let past := Iloc.slice (col_close df) i (i + window) in
      if Z.of_nat (length past) <? window then
        score_loop df current window similarities idxs'
      else
        bind (lift (Np.corrcoef01 current past)) (fun corr =>
        bind (lift (Iloc.get (col_timestamp df) (i + window))) (fun ts =>
        bind (list_append similarities (corr, i, ts)) (fun _ =>
        score_loop df current window similarities idxs')))
  end.

Fixpoint select_loop (top_n : Z) (picked results : positive)
    (items : list Cand) : Py unit :=
  match items with
  | [] => ret tt
  | c :: rest =>
      bind (lift (Strftime.strftime (cand_ts c))) (fun day =>
      bind (dict_lacks picked day) (fun lacks =>
      bind (if lacks then
              bind (dict_set picked day true) (fun _ =>
              list_append results c)
            else ret tt) (fun _ =>
      bind (list_len results) (fun n =>
      if top_n <=? n then ret tt
      else select_loop top_n picked results rest))))
  end.

(** The call: it returns the reference of the list [results]. *)
Definition find_similar_patterns (df : DataFrame) (window forward top_n : Z)
    : Py positive :=
  let current := Iloc.slice_from (col_close df) (- window) in
  bind (new (List [])) (fun similarities =>
  bind (score_loop df current window similarities
          (range (Z.of_nat (length df) - window - forward))) (fun _ =>
  bind (list_sort similarities) (fun _ =>
  bind (new (Dict ∅)) (fun picked =>
  bind (new (List [])) (fun results =>
  bind (list_items similarities) (fun items =>
  bind (select_loop top_n picked results items) (fun _ =>
  ret results))))))).

End Store.

(** What a caller that holds the reference returned reads in the store the
    call has left, or the exception raised. *)
Definition returned (out : PyResult positive * gmap positive Store.Obj)
    : PyResult (list Cand) :=
  match out with
  | (Ok r, h) =>
      match h !! r with
      | Some (Store.List items) => Ok items
      | _ => Raise AttributeError
      end
  | (Raise e, _) => Raise e
  end.

(** ** The search as a machine

    The phases of one call, one transition per loop turn, so that what a
    call can do is a relation on phases. *)

Inductive Phase : Type :=
  | Scoring (similarities : list Cand) (todo : list Z)
  | Sorting (similarities : list Cand)
  | Selecting (picked : gmap string bool) (results : list Cand)
      (todo : list Cand)
  | Done (results : list Cand)
  | Failed (e : PyError).

Section machine.
Context (df : DataFrame) (window forward top_n : Z).

Inductive step : Phase -> Phase -> Prop :=
  | step_score similarities similarities' i todo :
      score_step df (Iloc.slice_from (col_close df) (- window)) window
        similarities i = Ok similarities' ->
      step (Scoring similarities (i :: todo)) (Scoring similarities' todo)
  | step_score_raise similarities e i todo :
      score_step df (Iloc.slice_from (col_close df) (- window)) window
        similarities i = Raise e ->
      step (Scoring similarities (i :: todo)) (Failed e)
  | step_scored similarities :
      step (Scoring similarities []) (Sorting similarities)
  | step_sort similarities :
      step (Sorting similarities)
        (Selecting ∅ [] (sort_reverse cand_corr similarities))
  | step_select picked results c rest picked' results' :
      select_step picked results c = Ok (picked', results') ->
      Z.of_nat (length results') < top_n ->
      step (Selecting picked results (c :: rest))
        (Selecting picked' results' rest)
  | step_select_break picked results c rest picked' results' :
      select_step picked results c = Ok (picked', results') ->
      top_n <= Z.of_nat (length results') ->
      step (Selecting picked results (c :: rest)) (Done results')
  | step_select_raise picked results c rest e :
      select_step picked results c = Raise e ->
      step (Selecting picked results (c :: rest)) (Failed e)
  | step_selected picked results :
      step (Selecting picked results []) (Done results).

Definition initial : Phase :=
  Scoring [] (range (Z.of_nat (length df) - window - forward)).
End machine.

Definition final (p : Phase) : Prop :=
  match p with
  | Done _ | Failed _ => True
  | _ => False
  end.

(** The phase in which a call that returned, or raised, has ended. *)
Definition outcome (r : PyResult (list Cand)) : Phase :=
  match r with
  | Ok results => Done results
  | Raise e => Failed e
  end.

(** ** Properties of candidate lists *)

(** No score is a NaN. *)
Definition valid_scores (l : list Cand) : Prop :=
  Forall (fun c => PrimFloat.is_nan (cand_corr c) = false) l.

(** [a.score >= b.score], the comparison of Python floats. *)
Definition score_ge (a b : Cand) : Prop :=
  PrimFloat.leb (cand_corr b) (cand_corr a) = true.

(** [a] may stand before [b] in the ranking: its score is at least that of
    [b], and on equal scores it starts earlier. *)
Definition ranked_before (a b : Cand) : Prop :=
  score_ge a b /\
  (PrimFloat.ltb (cand_corr b) (cand_corr a) = false -> cand_idx a < cand_idx b).

(** What the scoring loop records in a candidate: the score of the window
    at its start index against [current], and the timestamp one window
    further. *)
Definition scored_at (df : DataFrame) (window : Z) (current : list float)
    (c : Cand) : Prop :=
  cand_corr c =
    Np.corr01 current
      (Iloc.slice (col_close df) (cand_idx c) (cand_idx c + window)) /\
  Iloc.get (col_timestamp df) (cand_idx c + window) = Ok (cand_ts c).

(** [picked] holds exactly the days of [results], each once. *)
Definition days_picked (picked : gmap string bool) (results : list Cand)
    : Prop :=
  (forall d, is_Some (picked !! d) <-> d ∈ cand_day <$> results) /\
  NoDup (cand_day <$> results).

(** While candidates are being selected, [picked] is the set of days of the
    candidates accepted so far, and these days are distinct. *)
Definition phase_ok (p : Phase) : Prop :=
  match p with
  | Selecting picked results _ => days_picked picked results
  | Done results => NoDup (cand_day <$> results)
  | _ => True
  end.

(** ** Frames to evaluate the search on *)

(** One bar a day from 1970-01-01 on, with the given closing prices. *)
Definition daily (closes : list float) : DataFrame :=
  imap (fun i c => mkBar (Z.of_nat i * Strftime.ms_per_day) c) closes.

(** One bar every twelve hours: two bars share each day. *)
Definition half_daily (closes : list float) : DataFrame :=
  imap (fun i c => mkBar (Z.of_nat i * (Strftime.ms_per_day / 2)) c) closes.

(** A steady rise: every window of three scores exactly 1 against the last. *)
Definition ramp : DataFrame := daily [1; 2; 3; 4; 5; 6; 7]%float.

(** A fall, then a rise. *)
Definition vee : DataFrame := daily [3; 2; 1; 2; 3; 4; 5; 6]%float.

(** The same prices, two bars a day. *)
Definition vee_half_daily : DataFrame :=
  half_daily [3; 2; 1; 2; 3; 4; 5; 6]%float.

(** The window at index 1 is constant. *)
Definition dip : DataFrame := daily [1; 0; 0; 1; 2]%float.

(** Every window is constant. *)
Definition flat : DataFrame := daily [5; 5; 5; 5; 5; 5]%float.

(** The binary64 number next below 1, that is 1 - 2^-53. *)
Definition below_one : float := 0x1.fffffffffffffp-1%float.

(** ** The figure

    [create_figure] with the figure reduced to what it is computed from the
    frame: the traces, each with its two axes, name and line, and the
    title. The exchange is what it is, a function from the request to the
    rows delivered. *)

(** A row as the exchange delivers it. *)
Record Ohlcv : Type := mkOhlcv {
  o_timestamp : Z;
  o_open : float;
  o_high : float;
  o_low : float;
  o_close : float;
  o_volume : float
}.

(** A [go.Scatter] in mode "lines". *)
Record Trace : Type := mkTrace {
  trace_x : list Z;
  trace_y : list float;
  trace_name : string;
  line_color : string;
  line_width : Z;
  line_dash : option string
}.

Record Figure : Type := mkFigure {
  fig_data : list Trace;
  fig_title : string
}.

Definition colors : list string :=
  ["red"; "orange"; "green"; "cyan"; "magenta"; "yellow"].

(** [np.arange(a, b)] on integers *)
Definition arange (a b : Z) : list Z := seqZ a (b - a).

(** The body of the loop over [enumerate(patterns)]: the trace of the
    match at position [i]. *)
Definition pattern_trace (df : DataFrame) (window forward : Z) (i : nat)
    (c : Cand) : PyResult Trace :=
  let past :=
    Iloc.slice (col_close df) (cand_idx c) (cand_idx c + window + forward) in
  do day <- Strftime.strftime (cand_ts c);
  let name := "PATTERN " +:+ pretty (i + 1)%nat +:+ " (" +:+ day +:+ ")" in
  do color <- Iloc.get colors (Z.of_nat i mod Z.of_nat (length colors));
  Ok (mkTrace (arange (- window) forward) past name color 1 (Some "dot")).

Fixpoint trace_loop (df : DataFrame) (window forward : Z)
    (pattern_traces : list Trace) (i : nat) (patterns : list Cand)
    : PyResult (list Trace) :=
  match patterns with
  | [] => Ok pattern_traces
  | c :: rest =>
      do trace <- pattern_trace df window forward i c;
      trace_loop df window forward (pattern_traces ++ [trace]) (S i) rest
  end.

Section dashboard.
Context (exchange_fetch_ohlcv : string -> string -> Z -> list Ohlcv).

(** The frame of the rows delivered, with the two columns read later. *)
Definition fetch_ohlcv (symbol timeframe : string) (limit : Z) : DataFrame :=
  map (fun r => mkBar (o_timestamp r) (o_close r))
    (exchange_fetch_ohlcv symbol timeframe limit).

Definition create_figure (symbol timeframe : string) (limit top_n : Z)
    : PyResult Figure :=
  let df := fetch_ohlcv symbol timeframe limit in
  let window := 150 in
  let forward := 60 in
  let current := Iloc.slice_from (col_close df) (- window - forward) in
  let current_trace :=
    mkTrace (arange (- window) forward) current "CURRENT" "white" 2 None in
  do patterns <- find_similar_patterns df window forward top_n;
  do pattern_traces <- trace_loop df window forward [] 0 patterns;
  Ok (mkFigure ([current_trace] ++ pattern_traces)
        (symbol +:+ " " +:+ timeframe +:+ " PATTERN ANALYSIS")).

Definition update_chart (coin timeframe : string) (max_bars top_n : Z)
    : PyResult Figure :=
  create_figure coin timeframe max_bars top_n.
End dashboard.

(** The number of calendar days on which a candidate is anchored. *)
Definition distinct_days (similarities : list Cand) : nat :=
  length (remove_dups (cand_day <$> similarities)).

(** A sawtooth of period 5 over 220 days, and an exchange that delivers
    it. *)
Definition wave : DataFrame :=
  daily ((fun i => Np.of_Z (i mod 5)) <$> seqZ 0 220).

Definition wave_exchange (symbol timeframe : string) (limit : Z)
    : list Ohlcv :=
  map (fun b => mkOhlcv (timestamp b) (close b) (close b) (close b)
                  (close b) 1%float) wave.

(** ** Comparisons of binary64 numbers *)

Module F64.

Lemma SFeqb_refl_false x : SFeqb x x = false -> x = S754_nan.
Proof.
  unfold SFeqb.
  destruct x as [s|s| |s m e]; simpl; try discriminate; try reflexivity.
  - destruct s; discriminate.
  - destruct s; rewrite Z.compare_refl, Pos.compare_cont_refl; discriminate.
Qed.

Ltac by_cases :=
  repeat match goal with
  | |- context [Z.compare ?a ?b] =>
      destruct (Z.compare_spec a b); subst
  | H : context [Z.compare ?a ?b] |- _ =>
      destruct (Z.compare_spec a b); subst
  | |- context [Pos.compare_cont Eq ?a ?b] =>
      change (Pos.compare_cont Eq a b) with (Pos.compare a b);
      destruct (Pos.compare_spec a b); subst
  | H : context [Pos.compare_cont Eq ?a ?b] |- _ =>
      change (Pos.compare_cont Eq a b) with (Pos.compare a b) in H;
      destruct (Pos.compare_spec a b); subst
  end; simpl in *; try discriminate; try reflexivity; try lia.

Lemma SFleb_trans x y z :
  SFleb x y = true -> SFleb y z = true -> SFleb x z = true.
Proof.
  unfold SFleb.
  destruct x as [s1|s1| |s1 m1 e1], y as [s2|s2| |s2 m2 e2],
           z as [s3|s3| |s3 m3 e3]; simpl;
    try discriminate; try reflexivity;
    try destruct s1; try destruct s2; try destruct s3; simpl;
    try discriminate; try reflexivity; by_cases.
Qed.

Lemma SFcompare_opp x y : SFcompare y x = option_map CompOpp (SFcompare x y).
Proof.
  destruct x as [s1|s1| |s1 m1 e1], y as [s2|s2| |s2 m2 e2]; simpl;
    try reflexivity; try destruct s1; try destruct s2; simpl; try reflexivity;
    rewrite (Z.compare_antisym e1 e2); destruct (e1 ?= e2); simpl;
    try reflexivity;
    change (Pos.compare_cont Eq m2 m1) with (Pos.compare m2 m1);
    change (Pos.compare_cont Eq m1 m2) with (Pos.compare m1 m2);
    rewrite (Pos.compare_antisym m1 m2); reflexivity.
Qed.

Lemma SFcompare_defined x y :
  x <> S754_nan -> y <> S754_nan -> SFcompare x y <> None.
Proof. destruct x, y; simpl; congruence. Qed.

Lemma is_nan_false x : PrimFloat.is_nan x = false -> Prim2SF x <> S754_nan.
Proof.
  unfold PrimFloat.is_nan. rewrite FloatAxioms.eqb_spec. intros H E.
  rewrite E in H. discriminate.
Qed.

Lemma is_nan_true x : PrimFloat.is_nan x = true -> Prim2SF x = S754_nan.
Proof.
  unfold PrimFloat.is_nan. rewrite FloatAxioms.eqb_spec. intros H.
  apply SFeqb_refl_false. destruct (SFeqb _ _); [discriminate | reflexivity].
Qed.

Lemma leb_trans x y z :
  PrimFloat.leb x y = true -> PrimFloat.leb y z = true ->
  PrimFloat.leb x z = true.
Proof. rewrite !leb_spec. apply SFleb_trans. Qed.

Lemma ltb_leb x y : PrimFloat.ltb x y = true -> PrimFloat.leb x y = true.
Proof.
  rewrite ltb_spec, leb_spec. unfold SFltb, SFleb.
  destruct (SFcompare _ _) as [[]|]; congruence.
Qed.

(** Among numbers, what is not below is at or above. *)
Lemma not_ltb_leb x y :
  PrimFloat.is_nan x = false -> PrimFloat.is_nan y = false ->
  PrimFloat.ltb y x = false -> PrimFloat.leb x y = true.
Proof.
  intros Hx%is_nan_false Hy%is_nan_false. rewrite ltb_spec, leb_spec.
  unfold SFltb, SFleb. rewrite (SFcompare_opp (Prim2SF x) (Prim2SF y)).
  pose proof (SFcompare_defined _ _ Hx Hy) as Hd.
  destruct (SFcompare (Prim2SF x) (Prim2SF y)) as [[]|]; simpl; congruence.
Qed.

Lemma eqb_not_ltb x y :
  PrimFloat.eqb x y = true -> PrimFloat.ltb y x = false.
Proof.
  rewrite FloatAxioms.eqb_spec, ltb_spec. unfold SFeqb, SFltb.
  rewrite (SFcompare_opp (Prim2SF x) (Prim2SF y)).
  destruct (SFcompare (Prim2SF x) (Prim2SF y)) as [[]|]; simpl; congruence.
Qed.

Lemma leb_not_nan x y :
  PrimFloat.leb x y = true ->
  PrimFloat.is_nan x = false /\ PrimFloat.is_nan y = false.
Proof.
  rewrite leb_spec. unfold SFleb. intros H.
  split; (destruct (PrimFloat.is_nan _) eqn:E; [| reflexivity]);
    apply is_nan_true in E; rewrite E in H; simpl in H;
    [| destruct (Prim2SF x)]; discriminate.
Qed.

(** A NaN compares false with everything, itself included. *)
Lemma leb_nan_l x y : PrimFloat.is_nan x = true -> PrimFloat.leb x y = false.
Proof.
  intros E. destruct (PrimFloat.leb x y) eqn:H; [| reflexivity].
  apply leb_not_nan in H. destruct H; congruence.
Qed.

Lemma leb_nan_r x y : PrimFloat.is_nan y = true -> PrimFloat.leb x y = false.
Proof.
  intros E. destruct (PrimFloat.leb x y) eqn:H; [| reflexivity].
  apply leb_not_nan in H. destruct H; congruence.
Qed.

End F64.

(** ** Slices, lookups and ranges *)

Module IlocFacts.
Import Iloc.

Lemma clamp_in_range len k : 0 <= k <= len -> clamp len k = k.
Proof. unfold clamp. intros H. destruct (Z.ltb_spec k 0); lia. Qed.

Lemma slice_in_range {A} (l : list A) (i w : Z) :
  0 <= i -> 0 <= w -> i + w <= Z.of_nat (length l) ->
  slice l i (i + w) = take (Z.to_nat w) (drop (Z.to_nat i) l).
Proof.
  intros Hi Hw Hl. unfold slice.
  rewrite !clamp_in_range by lia. f_equal. f_equal. lia.
Qed.

Lemma slice_length {A} (l : list A) (i w : Z) :
  0 <= i -> 0 <= w -> i + w <= Z.of_nat (length l) ->
  Z.of_nat (length (slice l i (i + w))) = w.
Proof.
  intros Hi Hw Hl. rewrite slice_in_range by assumption.
  rewrite length_take, length_drop. lia.
Qed.

Lemma slice_from_tail_length {A} (l : list A) (w : Z) :
  0 < w <= Z.of_nat (length l) ->
  Z.of_nat (length (slice_from l (- w))) = w.
Proof.
  intros H. unfold slice_from, clamp.
  destruct (Z.ltb_spec (- w) 0); [| lia].
  rewrite length_drop. lia.
Qed.

Lemma get_in_range {A} (l : list A) (k : Z) :
  0 <= k < Z.of_nat (length l) ->
  exists a, get l k = Ok a /\ l !! Z.to_nat k = Some a.
Proof.
  intros H. unfold get.
  destruct (Z.ltb_spec k 0); [lia |].
  destruct (Z.leb_spec 0 k); [| lia].
  destruct (Z.ltb_spec k (Z.of_nat (length l))); [| lia]. simpl.
  destruct (lookup_lt_is_Some_2 l (Z.to_nat k)) as [a Ha]; [lia |].
  exists a. rewrite Ha. split; reflexivity.
Qed.

Lemma get_Ok_nonneg {A} (l : list A) (k : Z) a :
  0 <= k -> get l k = Ok a -> l !! Z.to_nat k = Some a.
Proof.
  intros Hk. unfold get. destruct (Z.ltb_spec k 0); [lia |].
  destruct (_ && _); [| discriminate].
  destruct (l !! Z.to_nat k); congruence.
Qed.
End IlocFacts.

Lemma elem_of_range n i : i ∈ range n <-> 0 <= i < n.
Proof. unfold range. rewrite elem_of_seqZ. lia. Qed.

Lemma range_nonpos n : n <= 0 -> range n = [].
Proof. intros H. apply seqZ_nil. exact H. Qed.

Lemma range_increasing n : StronglySorted Z.lt (range n).
Proof.
  unfold range. generalize 0.
  induction n as [|n Hn IH|] using (Z.succ_pred_induction 0); intros m.
  - rewrite seqZ_nil by lia. constructor.
  - rewrite seqZ_cons by lia. rewrite Z.pred_succ. constructor; [apply IH |].
    apply Forall_seqZ. intros; lia.
  - rewrite seqZ_nil by lia. constructor.
Qed.

Section scoring.
Context (df : DataFrame) (window : Z).
Implicit Types (current : list float) (similarities : list Cand).

Lemma score_step_Ok current similarities i similarities' :
  score_step df current window similarities i = Ok similarities' ->
  similarities' = similarities \/
  exists c, similarities' = similarities ++ [c] /\ cand_idx c = i /\ scored_at df window current c.
Proof.
  unfold score_step.
  destruct (_ <? window); [intros [= <-]; left; reflexivity |].
  destruct (Np.corrcoef01 _ _) as [corr|] eqn:Hc; simpl; [| discriminate].
  destruct (Iloc.get _ _) as [ts|] eqn:Ht; simpl; [| discriminate].
  intros [= <-]. right. exists (corr, i, ts).
  unfold scored_at, cand_corr, cand_idx, cand_ts. simpl.
  repeat split; [| exact Ht].
  unfold Np.corrcoef01 in Hc. destruct (Nat.eqb _ _); congruence.
Qed.

(** Whatever the parameters, the candidates come in the order of the
    indices walked, each scored at its own index. *)
Lemma score_loop_Ok current idxs : forall similarities out,
  score_loop df current window similarities idxs = Ok out ->
  exists new, out = similarities ++ new /\
    map cand_idx new `sublist_of` idxs /\ Forall (scored_at df window current) new.
Proof.
  induction idxs as [|i idxs IH]; simpl; intros sims out H.
  - injection H as <-. exists []. rewrite app_nil_r. repeat constructor.
  - destruct (score_step df current window sims i) as [sims'|] eqn:Hs; simpl in H;
      [| discriminate].
    apply IH in H as (new & -> & Hsub & Hall).
    apply score_step_Ok in Hs as [-> | (c & -> & Hi & Hc)].
    + exists new. repeat split; [| exact Hall]. apply sublist_cons, Hsub.
    + exists (c :: new). rewrite <- app_assoc. repeat split.
      * simpl. rewrite Hi. apply sublist_skip, Hsub.
      * constructor; assumption.
Qed.

(** With a window that fits at every index walked, no turn is skipped and
    none raises. *)
Lemma score_loop_total current idxs : forall similarities,
  Z.of_nat (length current) = window ->
  Forall (fun i => 0 <= i /\ i + window < Z.of_nat (length df)) idxs ->
  0 <= window ->
  exists new, score_loop df current window similarities idxs = Ok (similarities ++ new) /\
    map cand_idx new = idxs.
Proof.
  intros sims Hcur Hall Hw. revert sims.
  induction Hall as [|i idxs [Hi Hiw] _ IH]; intros sims; simpl.
  - exists []. rewrite app_nil_r. split; reflexivity.
  - unfold score_step.
    assert (Hlen : Z.of_nat (length (Iloc.slice (col_close df) i (i + window))) = window).
    { apply IlocFacts.slice_length; [lia | lia |]. unfold col_close. rewrite length_map. lia. }
    rewrite Hlen. rewrite Z.ltb_irrefl.
    unfold Np.corrcoef01.
    replace (Nat.eqb _ _) with true by (symmetry; apply Nat.eqb_eq; lia).
    simpl.
    destruct (IlocFacts.get_in_range (col_timestamp df) (i + window)) as (ts & -> & _).
    { unfold col_timestamp. rewrite length_map. lia. }
    simpl. destruct (IH (sims ++ [(Np.corr01 current (Iloc.slice (col_close df) i (i + window)), i, ts)]))
      as (new & -> & Hnew).
    eexists (_ :: new). rewrite <- app_assoc. split; [reflexivity |].
    simpl. rewrite Hnew. reflexivity.
Qed.
End scoring.

(** ** The sort *)

Lemma StronglySorted_rev {A} (R : relation A) (l : list A) :
  StronglySorted R l -> StronglySorted (flip R) (rev l).
Proof.
  induction 1 as [|x l Hl IH Hx]; simpl; [constructor |].
  apply StronglySorted_app_2; [| exact IH | repeat constructor].
  intros y z Hy Hz. apply list_elem_of_singleton in Hz as ->.
  rewrite Forall_forall in Hx. apply Hx.
  apply list_elem_of_In, in_rev, list_elem_of_In, Hy.
Qed.

Lemma StronglySorted_sublist {A} (R : relation A) (l k : list A) :
  l `sublist_of` k -> StronglySorted R k -> StronglySorted R l.
Proof.
  induction 1 as [| x l k Hs IH | x l k Hs IH]; intros Hk.
  - constructor.
  - apply StronglySorted_cons in Hk as [Hx Hk].
    constructor; [apply IH, Hk |].
    rewrite Forall_forall in *. intros y Hy. apply Hx.
    eapply elem_of_sublist; eassumption.
  - apply StronglySorted_cons in Hk as [_ Hk]. apply IH, Hk.
Qed.

Lemma StronglySorted_lookup {A} (R : relation A) (l : list A) i j a b :
  StronglySorted R l -> (i < j)%nat -> l !! i = Some a -> l !! j = Some b ->
  R a b.
Proof.
  intros Hl. revert i j. induction Hl as [|x l Hl IH Hx]; intros i j Hij Ha Hb.
  - rewrite lookup_nil in Ha. discriminate.
  - destruct j as [|j]; [lia |]. simpl in Hb. destruct i as [|i]; simpl in Ha.
    + injection Ha as ->. rewrite Forall_forall in Hx.
      apply Hx. eapply list_elem_of_lookup_2, Hb.
    + apply (IH i j); [lia | assumption..].
Qed.

Section sort_facts.
Context {A : Type} (key : A -> float) (pos : A -> Z).
Implicit Types (x y : A) (l : list A).

Lemma insert_lt_perm x l : insert_lt key x l ≡ₚ x :: l.
Proof.
  induction l as [|y l IH]; simpl; [reflexivity |].
  destruct (PrimFloat.ltb _ _); [| reflexivity].
  rewrite IH. apply Permutation_swap.
Qed.

Lemma sort_stable_perm l : sort_stable key l ≡ₚ l.
Proof.
  induction l as [|x l IH]; simpl; [reflexivity |].
  rewrite insert_lt_perm, IH. reflexivity.
Qed.

(** Sorting discards nothing and invents nothing. *)
Lemma sort_reverse_perm l : sort_reverse key l ≡ₚ l.
Proof.
  unfold sort_reverse.
  rewrite <- Permutation_rev, sort_stable_perm, <- Permutation_rev.
  reflexivity.
Qed.

Local Abbreviation asc := (ascending_by key pos).
Local Abbreviation number := (fun x => PrimFloat.is_nan (key x) = false).

Lemma insert_lt_sorted x l :
  number x -> Forall number l -> Forall (fun y => pos y < pos x) l ->
  StronglySorted asc l -> StronglySorted asc (insert_lt key x l).
Proof.
  intros Hx Hnum Hpos Hl.
  induction Hl as [|y l Hl IH Hy]; simpl; [repeat constructor |].
  apply Forall_cons in Hnum as [Hny Hnum].
  apply Forall_cons in Hpos as [Hpy Hpos].
  destruct (PrimFloat.ltb (key y) (key x)) eqn:Hlt.
  - constructor; [apply IH; assumption |].
    rewrite Forall_forall in *. intros z Hz.
    rewrite insert_lt_perm in Hz. apply elem_of_cons in Hz as [-> | Hz].
    + split; [apply F64.ltb_leb, Hlt | congruence].
    + apply Hy, Hz.
  - assert (Hxy : asc x y).
    { split; [apply F64.not_ltb_leb; assumption | intros _; exact Hpy]. }
    constructor; [constructor; assumption |].
    constructor; [exact Hxy |].
    rewrite Forall_forall in *. intros z Hz.
    destruct (Hy z Hz) as [Hyz _]. split.
    + eapply F64.leb_trans; [apply Hxy | exact Hyz].
    + intros _. apply Hpos, Hz.
Qed.

Lemma sort_stable_sorted l :
  Forall number l -> StronglySorted (fun x y => pos y < pos x) l ->
  StronglySorted asc (sort_stable key l).
Proof.
  intros Hnum Hl. induction Hl as [|x l Hl IH Hx]; simpl; [constructor |].
  apply Forall_cons in Hnum as [Hnx Hnum].
  apply insert_lt_sorted; [exact Hnx | | | apply IH, Hnum].
  - rewrite Forall_forall in *. intros y Hy.
    rewrite sort_stable_perm in Hy. apply Hnum, Hy.
  - rewrite Forall_forall in *. intros y Hy.
    rewrite sort_stable_perm in Hy. apply Hx, Hy.
Qed.

(** On keys that are all numbers, [sort(reverse=True)] puts the keys in
    non-increasing order and keeps elements of equal keys in the order of
    their positions. *)
Lemma sort_reverse_sorted l :
  Forall number l -> StronglySorted (fun x y => pos x < pos y) l ->
  StronglySorted (flip asc) (sort_reverse key l).
Proof.
  intros Hnum Hl. unfold sort_reverse.
  apply StronglySorted_rev, sort_stable_sorted.
  - rewrite Forall_forall in *. intros x Hx.
    apply Hnum, list_elem_of_In, in_rev, list_elem_of_In, Hx.
  - apply StronglySorted_rev in Hl. exact Hl.
Qed.
End sort_facts.

(** ** The selection loop *)

Section selecting.
Implicit Types (picked : gmap string bool) (results similarities : list Cand).

Lemma strftime_Ok ts day :
  Strftime.strftime ts = Ok day ->
  day = Strftime.ymd ts /\ Strftime.supported ts = true.
Proof.
  unfold Strftime.strftime. destruct (Strftime.supported ts); [| discriminate].
  intros [= <-]. split; reflexivity.
Qed.

Lemma strftime_Raise ts e :
  Strftime.strftime ts = Raise e ->
  e = NotImplementedError /\ Strftime.supported ts = false.
Proof.
  unfold Strftime.strftime. destruct (Strftime.supported ts); [discriminate |].
  intros [= <-]. split; reflexivity.
Qed.

Lemma select_step_cases picked results c picked' results' :
  select_step picked results c = Ok (picked', results') ->
  (picked !! cand_day c = None /\
   picked' = <[cand_day c := true]> picked /\ results' = results ++ [c]) \/
  (is_Some (picked !! cand_day c) /\ picked' = picked /\ results' = results).
Proof.
  unfold select_step.
  destruct (Strftime.strftime (cand_ts c)) as [day|] eqn:Hd; simpl;
    [| discriminate].
  apply strftime_Ok in Hd as [-> _]. fold (cand_day c).
  destruct (picked !! cand_day c) eqn:E; intros [= <- <-].
  - right. split; [eexists; reflexivity | split; reflexivity].
  - left. repeat split; reflexivity.
Qed.

Lemma select_step_Raise picked results c e :
  select_step picked results c = Raise e ->
  e = NotImplementedError /\ Strftime.supported (cand_ts c) = false.
Proof.
  unfold select_step.
  destruct (Strftime.strftime (cand_ts c)) as [day|] eqn:Hd; simpl.
  - destruct (picked !! day); discriminate.
  - intros [= <-]. apply strftime_Raise in Hd. exact Hd.
Qed.

Lemma select_step_supported picked results c :
  Strftime.supported (cand_ts c) = true ->
  exists state, select_step picked results c = Ok state.
Proof.
  intros H. unfold select_step, Strftime.strftime. rewrite H. simpl.
  destruct (picked !! _); eexists; reflexivity.
Qed.

Lemma select_step_days_picked picked results c picked' results' :
  days_picked picked results ->
  select_step picked results c = Ok (picked', results') ->
  days_picked picked' results'.
Proof.
  intros [Hdom Hnd] Hs.
  destruct (select_step_cases _ _ _ _ _ Hs) as [(Hn & -> & ->) | (_ & -> & ->)];
    [| split; assumption].
  split.
  - intros d. rewrite fmap_app, elem_of_app, <- Hdom. simpl.
    rewrite list_elem_of_singleton.
    destruct (decide (cand_day c = d)) as [<- | Hne].
    + rewrite lookup_insert_eq. split; [right; reflexivity | eauto].
    + rewrite lookup_insert_ne by exact Hne.
      split; [tauto | intros [? | ?]; congruence].
  - rewrite fmap_app. apply NoDup_app. split; [exact Hnd |]. split.
    + intros d Hd Hd'. apply list_elem_of_singleton in Hd' as ->.
      apply Hdom in Hd. rewrite Hn in Hd. destruct Hd; discriminate.
    + apply NoDup_singleton.
Qed.

Lemma select_step_length picked results c picked' results' :
  select_step picked results c = Ok (picked', results') ->
  (length results <= length results' <= S (length results))%nat.
Proof.
  intros Hs.
  destruct (select_step_cases _ _ _ _ _ Hs) as [(_ & _ & ->) | (_ & _ & ->)].
  - rewrite length_app. simpl. lia.
  - lia.
Qed.

(** The shape of a turn of the loop that has not raised. *)
Lemma select_loop_cons top_n picked results c rest out :
  select_loop top_n picked results (c :: rest) = Ok out ->
  exists picked' results',
    select_step picked results c = Ok (picked', results') /\
    ((top_n <= Z.of_nat (length results') /\ out = results') \/
     (Z.of_nat (length results') < top_n /\
      select_loop top_n picked' results' rest = Ok out)).
Proof.
  simpl. destruct (select_step picked results c) as [[picked' results']|e];
    simpl; [| discriminate].
  intros H. exists picked', results'. split; [reflexivity |].
  destruct (Z.leb_spec top_n (Z.of_nat (length results'))).
  - left. split; [assumption | congruence].
  - right. split; assumption.
Qed.

Lemma select_loop_days_picked top_n similarities : forall picked results out,
  days_picked picked results ->
  select_loop top_n picked results similarities = Ok out ->
  NoDup (cand_day <$> out).
Proof.
  induction similarities as [|c rest IH]; intros picked results out Hinv H.
  - injection H as <-. apply Hinv.
  - apply select_loop_cons in H
      as (picked' & results' & Hs & [[_ ->] | [_ H]]);
      pose proof (select_step_days_picked _ _ _ _ _ Hinv Hs) as Hinv'.
    + apply Hinv'.
    + eapply IH; eassumption.
Qed.

(** The loop only appends, and what it appends it takes from the list it
    walks, in order. *)
Lemma select_loop_sublist top_n similarities : forall picked results out,
  select_loop top_n picked results similarities = Ok out ->
  exists new, out = results ++ new /\ new `sublist_of` similarities.
Proof.
  induction similarities as [|c rest IH]; intros picked results out H.
  - injection H as <-. exists []. rewrite app_nil_r.
    split; [reflexivity | constructor].
  - apply select_loop_cons in H
      as (picked' & results' & Hs & Hcases).
    assert (Hnew : forall new, new `sublist_of` rest ->
              exists new', results' ++ new = results ++ new' /\
                           new' `sublist_of` c :: rest).
    { intros new Hsub.
      destruct (select_step_cases _ _ _ _ _ Hs)
        as [(_ & _ & ->) | (_ & _ & ->)].
      - exists (c :: new). rewrite <- app_assoc.
        split; [reflexivity | apply sublist_skip, Hsub].
      - exists new. split; [reflexivity | apply sublist_cons, Hsub]. }
    destruct Hcases as [[_ ->] | [_ H]].
    + destruct (Hnew [] (sublist_nil_l _)) as (new' & E & Hsub).
      rewrite app_nil_r in E. exists new'. split; assumption.
    + apply IH in H as (new & -> & Hsub). apply Hnew, Hsub.
Qed.

(** Entered below [top_n], the loop ends at [top_n] at most. *)
Lemma select_loop_length top_n similarities : forall picked results out,
  select_loop top_n picked results similarities = Ok out ->
  Z.of_nat (length results) < top_n ->
  Z.of_nat (length out) <= top_n.
Proof.
  induction similarities as [|c rest IH]; intros picked results out H Hlt.
  - injection H as <-. lia.
  - apply select_loop_cons in H
      as (picked' & results' & Hs & [[_ ->] | [Hlt' H]]).
    + pose proof (select_step_length _ _ _ _ _ Hs). lia.
    + eapply IH; eassumption.
Qed.

(** A result that stays below [top_n] has a candidate for every day of
    the list walked. *)
Lemma select_loop_exhausted top_n similarities : forall picked results out,
  days_picked picked results ->
  select_loop top_n picked results similarities = Ok out ->
  Z.of_nat (length out) < top_n ->
  forall c, c ∈ similarities -> cand_day c ∈ cand_day <$> out.
Proof.
  induction similarities as [|c rest IH]; intros picked results out Hinv H Hlt.
  - intros c Hc. apply elem_of_nil in Hc as [].
  - apply select_loop_cons in H
      as (picked' & results' & Hs & [[? ->] | [_ H]]); [lia |].
    pose proof (select_step_days_picked _ _ _ _ _ Hinv Hs) as Hinv'.
    intros c' Hc'. apply elem_of_cons in Hc' as [-> | Hc'];
      [| eapply IH; eassumption].
    destruct (select_loop_sublist _ _ _ _ _ H) as (new & -> & _).
    rewrite fmap_app, elem_of_app. left. apply Hinv'.
    destruct (select_step_cases _ _ _ _ _ Hs)
      as [(_ & -> & _) | (Hp & -> & _)].
    + rewrite lookup_insert_eq. eauto.
    + exact Hp.
Qed.

(** The first candidate walked is accepted whatever [top_n] is. *)
Lemma select_loop_head top_n c rest out :
  select_loop top_n ∅ [] (c :: rest) = Ok out ->
  exists more, out = c :: more.
Proof.
  intros H. apply select_loop_cons in H
    as (picked' & results' & Hs & Hcases).
  destruct (select_step_cases _ _ _ _ _ Hs)
    as [(_ & _ & ->) | (Hp & _ & _)].
  - destruct Hcases as [[_ ->] | [_ H]]; [exists []; reflexivity |].
    apply select_loop_sublist in H as (new & -> & _).
    exists new. reflexivity.
  - rewrite lookup_empty in Hp. destruct Hp; discriminate.
Qed.

(** With [top_n <= 0] the loop stops after that first candidate. *)
Lemma select_loop_nonpos top_n c rest out :
  top_n <= 0 ->
  select_loop top_n ∅ [] (c :: rest) = Ok out ->
  out = [c].
Proof.
  intros Hn H. apply select_loop_cons in H
    as (picked' & results' & Hs & Hcases).
  destruct (select_step_cases _ _ _ _ _ Hs)
    as [(_ & _ & ->) | (Hp & _ & _)].
  - destruct Hcases as [[_ ->] | [Hlt _]]; [reflexivity |].
    simpl in Hlt. lia.
  - rewrite lookup_empty in Hp. destruct Hp; discriminate.
Qed.

(** The loop raises nothing when [strftime] accepts every timestamp. *)
Lemma select_loop_supported top_n similarities : forall picked results,
  Forall (fun c => Strftime.supported (cand_ts c) = true) similarities ->
  exists out, select_loop top_n picked results similarities = Ok out.
Proof.
  induction similarities as [|c rest IH]; intros picked results Hall; simpl.
  - eexists. reflexivity.
  - apply Forall_cons in Hall as [Hc Hall].
    destruct (select_step_supported picked results c Hc) as ([p' r'] & ->).
    simpl. destruct (top_n <=? _); [eexists; reflexivity | apply IH, Hall].
Qed.

(** What the loop raises is what [strftime] raises, on a candidate of the
    list walked. *)
Lemma select_loop_Raise top_n similarities : forall picked results e,
  select_loop top_n picked results similarities = Raise e ->
  e = NotImplementedError /\
  exists c, c ∈ similarities /\ Strftime.supported (cand_ts c) = false.
Proof.
  induction similarities as [|c rest IH]; intros picked results e; simpl;
    [discriminate |].
  destruct (select_step picked results c) as [[p' r']|e'] eqn:Hs; simpl.
  - destruct (top_n <=? _); [discriminate |].
    intros H. apply IH in H as (-> & c' & Hc' & Hu).
    split; [reflexivity |]. exists c'. split; [| exact Hu].
    apply elem_of_cons. right. exact Hc'.
  - intros [= <-]. apply select_step_Raise in Hs as [-> Hu].
    split; [reflexivity |]. exists c. split; [| exact Hu].
    apply elem_of_cons. left. reflexivity.
Qed.

Lemma days_picked_empty : days_picked ∅ [].
Proof.
  split; [| constructor]. intros d. rewrite lookup_empty. simpl. split.
  - intros [? ?]; discriminate.
  - intros H. apply elem_of_nil in H as [].
Qed.
End selecting.

(** ** The machine *)

Section machine_facts.
Context (df : DataFrame) (window forward top_n : Z).
Local Abbreviation step := (step df window top_n).
Local Abbreviation current := (Iloc.slice_from (col_close df) (- window)).

Lemma step_deterministic p q1 q2 : step p q1 -> step p q2 -> q1 = q2.
Proof.
  destruct 1; inversion 1; subst; try reflexivity;
    repeat match goal with
    | H1 : ?t = _, H2 : ?t = _ |- _ => rewrite H1 in H2; inversion H2; clear H2
    end; subst; try reflexivity; try lia.
Qed.

Lemma final_stuck p q : final p -> ~ step p q.
Proof. intros Hf Hs. destruct Hs; exact Hf. Qed.

(** Runs that have come to an end have come to the same end. *)
Lemma exec_unique p q1 q2 :
  rtc step p q1 -> final q1 -> rtc step p q2 -> final q2 -> q1 = q2.
Proof.
  intros H1 Hf1. revert q2.
  induction H1 as [p | p p' q1 Hs H1 IH]; intros q2 H2 Hf2.
  - inversion H2 as [| ? p' ? Hs _]; subst; [reflexivity |].
    destruct (final_stuck _ _ Hf1 Hs).
  - inversion H2 as [| ? p'' ? Hs' H2']; subst.
    + destruct (final_stuck _ _ Hf2 Hs).
    + rewrite (step_deterministic _ _ _ Hs' Hs) in H2'. apply IH; assumption.
Qed.

Lemma exec_scoring idxs : forall similarities,
  rtc step (Scoring similarities idxs)
    match score_loop df current window similarities idxs with
    | Ok out => Sorting out
    | Raise e => Failed e
    end.
Proof.
  induction idxs as [|i idxs IH]; intros sims; simpl.
  - apply rtc_once. constructor.
  - destruct (score_step df current window sims i) as [sims'|e] eqn:Hs; simpl.
    + eapply rtc_l; [apply step_score, Hs | apply IH].
    + apply rtc_once, step_score_raise, Hs.
Qed.

Lemma exec_selecting similarities : forall picked results,
  rtc step (Selecting picked results similarities)
    (outcome (select_loop top_n picked results similarities)).
Proof.
  induction similarities as [|c rest IH]; intros picked results; simpl.
  - apply rtc_once. constructor.
  - destruct (select_step picked results c) as [[picked' results']|e] eqn:Hs;
      simpl.
    + destruct (Z.leb_spec top_n (Z.of_nat (length results'))).
      * apply rtc_once. eapply step_select_break; eassumption.
      * eapply rtc_l; [eapply step_select; eassumption | apply IH].
    + apply rtc_once, step_select_raise, Hs.
Qed.

(** The function computes the end of the run. *)
Lemma exec_find_similar_patterns :
  rtc step (initial df window forward)
    (outcome (find_similar_patterns df window forward top_n)).
Proof.
  unfold find_similar_patterns, score_candidates, initial.
  pose proof (exec_scoring (range (Z.of_nat (length df) - window - forward)) [])
    as Hs.
  destruct (score_loop _ _ _ _ _) as [sims|e]; simpl; [| exact Hs].
  etrans; [exact Hs |].
  eapply rtc_l; [constructor | apply exec_selecting].
Qed.

Lemma step_phase_ok p q : step p q -> phase_ok p -> phase_ok q.
Proof.
  destruct 1; simpl; intros Hp; try exact I.
  - apply days_picked_empty.
  - eapply select_step_days_picked; eassumption.
  - eapply select_step_days_picked; eassumption.
  - apply Hp.
Qed.

Lemma reachable_phase_ok p : rtc step (initial df window forward) p -> phase_ok p.
Proof.
  intros H. assert (Hi : phase_ok (initial df window forward)) by exact I.
  induction H as [| p q r Hs _ IH]; [exact Hi |].
  apply IH. eapply step_phase_ok; eassumption.
Qed.
End machine_facts.

(** ** The search as a whole *)

Lemma find_similar_patterns_Ok df window forward top_n results :
  find_similar_patterns df window forward top_n = Ok results ->
  exists similarities,
    score_candidates df window forward = Ok similarities /\
    select_loop top_n ∅ [] (sort_reverse cand_corr similarities)
      = Ok results.
Proof.
  unfold find_similar_patterns.
  destruct (score_candidates df window forward) as [sims|e]; simpl;
    [| discriminate].
  intros H. exists sims. split; [reflexivity | exact H].
Qed.

Lemma find_similar_patterns_scored df window forward top_n similarities :
  score_candidates df window forward = Ok similarities ->
  find_similar_patterns df window forward top_n =
    select_loop top_n ∅ [] (sort_reverse cand_corr similarities).
Proof. unfold find_similar_patterns. intros ->. reflexivity. Qed.

(** The candidates are scored in the order of their start indices. *)
Lemma score_candidates_increasing df window forward similarities :
  score_candidates df window forward = Ok similarities ->
  StronglySorted (fun a b => cand_idx a < cand_idx b) similarities.
Proof.
  unfold score_candidates. intros H.
  apply score_loop_Ok in H as (new & -> & Hsub & _). simpl.
  pose proof (StronglySorted_sublist _ _ _ Hsub (range_increasing _)) as Hs.
  clear Hsub. induction new as [|c new IH]; [constructor |].
  simpl in Hs. apply StronglySorted_cons in Hs as [Hc Hs].
  constructor; [apply IH, Hs |].
  rewrite Forall_forall in Hc. apply Forall_forall. intros b Hb. apply Hc.
  apply (list_elem_of_fmap_2 cand_idx), Hb.
Qed.

(** With valid scores throughout, the sorted list is ranked: scores do not
    increase, and equal scores come by start index. *)
Lemma sorted_ranked df window forward similarities :
  score_candidates df window forward = Ok similarities ->
  valid_scores similarities ->
  StronglySorted ranked_before (sort_reverse cand_corr similarities).
Proof.
  intros Hs Hv.
  apply (sort_reverse_sorted cand_corr cand_idx similarities Hv).
  eapply score_candidates_increasing, Hs.
Qed.

(** With room for a window and its continuation at every index, the scoring
    loop returns, with one candidate per index of the range. *)
Lemma score_candidates_total df window forward :
  0 < window -> 0 <= forward ->
  exists similarities,
    score_candidates df window forward = Ok similarities /\
    cand_idx <$> similarities =
      range (Z.of_nat (length df) - window - forward).
Proof.
  intros Hw Hf. unfold score_candidates.
  destruct (Z.le_gt_cases (Z.of_nat (length df) - window - forward) 0)
    as [Hn | Hn].
  - rewrite range_nonpos by exact Hn. exists []. split; reflexivity.
  - destruct (score_loop_total df window
                (Iloc.slice_from (col_close df) (- window))
                (range (Z.of_nat (length df) - window - forward)) [])
      as (new & E & Hidx).
    + apply IlocFacts.slice_from_tail_length. unfold col_close.
      rewrite length_map. lia.
    + apply Forall_forall. intros i Hi. apply elem_of_range in Hi. lia.
    + lia.
    + exists new. split; [exact E | exact Hidx].
Qed.

(** ** The search on the store *)

Section store_facts.
Implicit Types (h : gmap positive Store.Obj).

(** Two stores are equal when they hold the same at each reference. *)
Ltac store_eq p r :=
  apply map_eq; intros ?;
  match goal with
  | |- _ !! ?k = _ =>
      destruct (decide (k = r)), (decide (k = p)); simplify_map_eq; done
  end.

Lemma fresh_unused h : h !! fresh (dom h) = None.
Proof. apply not_elem_of_dom, is_fresh. Qed.

(** The scoring loop works on the one list it is given, and leaves in it
    what [score_loop] computes. *)
Lemma store_score_loop df current window similarities idxs : forall h items,
  h !! similarities = Some (Store.List items) ->
  exists items',
    Store.score_loop df current window similarities idxs h =
      (match score_loop df current window items idxs with
       | Ok _ => Ok tt
       | Raise e => Raise e
       end,
       <[similarities := Store.List items']> h) /\
    forall out, score_loop df current window items idxs = Ok out ->
      items' = out.
Proof.
  induction idxs as [|i idxs IH]; intros h items Hl; simpl.
  - exists items. rewrite insert_id by exact Hl. split; [reflexivity |].
    intros out [= <-]. reflexivity.
  - unfold score_step.
    destruct (_ <? window); simpl; [apply IH, Hl |].
    unfold Store.bind at 1, Store.lift at 1.
    destruct (Np.corrcoef01 _ _) as [corr|e]; simpl.
    2:{ exists items. rewrite insert_id by exact Hl. split; [reflexivity |].
        discriminate. }
    unfold Store.bind at 1, Store.lift at 1.
    destruct (Iloc.get _ _) as [ts|e]; simpl.
    2:{ exists items. rewrite insert_id by exact Hl. split; [reflexivity |].
        discriminate. }
    unfold Store.bind at 1, Store.list_append at 1. rewrite Hl.
    cbv beta iota.
    destruct (IH (<[similarities := Store.List (items ++ [(corr, i, ts)])]> h)
                (items ++ [(corr, i, ts)])) as (items' & E & Hout).
    { apply lookup_insert_eq. }
    exists items'. split; [| exact Hout].
    etrans; [exact E |]. rewrite insert_insert_eq. reflexivity.
Qed.

(** The selection loop works on the dict and the list it is given, and
    leaves in the list what [select_loop] computes. *)
Lemma store_select_loop top_n picked results items :
  picked <> results ->
  forall h entries accepted,
    h !! picked = Some (Store.Dict entries) ->
    h !! results = Some (Store.List accepted) ->
    exists entries' accepted',
      Store.select_loop top_n picked results items h =
        (match select_loop top_n entries accepted items with
         | Ok _ => Ok tt
         | Raise e => Raise e
         end,
         <[results := Store.List accepted']>
           (<[picked := Store.Dict entries']> h)) /\
      forall out, select_loop top_n entries accepted items = Ok out ->
        accepted' = out.
Proof.
  intros Hne. induction items as [|c rest IH]; intros h entries accepted Hp Hr;
    simpl.
  - exists entries, accepted.
    rewrite (insert_id h picked) by exact Hp.
    rewrite insert_id by exact Hr. split; [reflexivity |].
    intros out [= <-]. reflexivity.
  - unfold select_step.
    unfold Store.bind at 1, Store.lift at 1.
    destruct (Strftime.strftime (cand_ts c)) as [day|e]; simpl.
    2:{ exists entries, accepted.
        rewrite (insert_id h picked) by exact Hp.
        rewrite insert_id by exact Hr. split; [reflexivity | discriminate]. }
    unfold Store.bind at 1, Store.dict_lacks at 1. rewrite Hp.
    destruct (entries !! day) eqn:Hday; simpl.
    + (* the day is taken *)
      unfold Store.bind at 1, Store.ret at 1.
      unfold Store.bind at 1, Store.list_len at 1. rewrite Hr.
      destruct (top_n <=? Z.of_nat (length accepted)).
      * exists entries, accepted.
        rewrite (insert_id h picked) by exact Hp.
        rewrite insert_id by exact Hr. split; [reflexivity |].
        intros out [= <-]. reflexivity.
      * apply IH; assumption.
    + (* the day is new *)
      unfold Store.bind at 1. unfold Store.bind at 1, Store.dict_set at 1.
      rewrite Hp. unfold Store.list_append at 1.
      rewrite lookup_insert_ne by exact Hne. rewrite Hr.
      unfold Store.bind at 1, Store.list_len at 1.
      rewrite lookup_insert_eq.
      set (h' := <[results := Store.List (accepted ++ [c])]>
                   (<[picked := Store.Dict (<[day := true]> entries)]> h)).
      assert (Hp' : h' !! picked = Some (Store.Dict (<[day := true]> entries))).
      { unfold h'. rewrite lookup_insert_ne by congruence.
        apply lookup_insert_eq. }
      assert (Hr' : h' !! results = Some (Store.List (accepted ++ [c])))
        by apply lookup_insert_eq.
      assert (Hh : forall e' a',
                <[results := Store.List a']> (<[picked := Store.Dict e']> h') =
                <[results := Store.List a']> (<[picked := Store.Dict e']> h)).
      { intros e' a'. unfold h'. store_eq picked results. }
      destruct (top_n <=? Z.of_nat (length (accepted ++ [c]))).
      * exists (<[day := true]> entries), (accepted ++ [c]).
        split; [reflexivity | intros out [= <-]; reflexivity].
      * destruct (IH h' _ _ Hp' Hr') as (e' & a' & E & Hout).
        exists e', a'. split; [| exact Hout].
        etrans; [exact E |]. rewrite Hh. reflexivity.
Qed.

(** A call leaves every object it has found as it was, and returns, at a
    reference that was not in use, the list that [find_similar_patterns]
    computes, or raises what it raises. *)
Lemma store_find_similar_patterns df window forward top_n h :
  (forall r o, h !! r = Some o ->
     (Store.find_similar_patterns df window forward top_n h).2 !! r = Some o) /\
  returned (Store.find_similar_patterns df window forward top_n h) =
    find_similar_patterns df window forward top_n /\
  forall r, (Store.find_similar_patterns df window forward top_n h).1 = Ok r ->
    h !! r = None /\
    exists items,
      (Store.find_similar_patterns df window forward top_n h).2 !! r =
        Some (Store.List items).
Proof.
  destruct (Store.find_similar_patterns df window forward top_n h)
    as [res h'] eqn:Hcall.
  unfold find_similar_patterns, score_candidates.
  unfold Store.find_similar_patterns in Hcall.
  set (s := fresh (dom h)) in *.
  assert (Hs : h !! s = None) by apply fresh_unused.
  unfold Store.bind at 1, Store.new at 1 in Hcall. fold s in Hcall.
  set (h0 := <[s := Store.List []]> h) in *.
  destruct (store_score_loop df (Iloc.slice_from (col_close df) (- window))
              window s (range (Z.of_nat (length df) - window - forward))
              h0 []) as (items & Hrun & Hout); [apply lookup_insert_eq |].
  assert (Hframe0 : forall x r o, h !! r = Some o ->
            <[s := x]> h !! r = Some o).
  { intros x r o Hr. rewrite lookup_insert_ne; [exact Hr |].
    intros <-. congruence. }
  unfold Store.bind at 1 in Hcall. rewrite Hrun in Hcall. unfold h0 in Hcall.
  rewrite insert_insert_eq in Hcall.
  destruct (score_loop df _ window [] _) as [sims|e]; simpl.
  2:{ injection Hcall as <- <-.
      split; [apply Hframe0 |]. split; [reflexivity | discriminate]. }
  rewrite (Hout sims eq_refl) in Hcall.
  unfold Store.bind at 1, Store.list_sort at 1 in Hcall.
  rewrite lookup_insert_eq in Hcall.
  rewrite insert_insert_eq in Hcall.
  set (h1 := <[s := Store.List (sort_reverse cand_corr sims)]> h) in *.
  unfold Store.bind at 1, Store.new at 1 in Hcall.
  set (p := fresh (dom h1)) in *. set (h2 := <[p := Store.Dict ∅]> h1) in *.
  unfold Store.bind at 1, Store.new at 1 in Hcall.
  set (r := fresh (dom h2)) in *. set (h3 := <[r := Store.List []]> h2) in *.
  assert (Hp : h1 !! p = None) by apply fresh_unused.
  assert (Hr : h2 !! r = None) by apply fresh_unused.
  assert (Hps : p <> s).
  { intros E. unfold h1 in Hp. rewrite E, lookup_insert_eq in Hp.
    discriminate. }
  assert (Hrp : r <> p).
  { intros E. unfold h2 in Hr. rewrite E, lookup_insert_eq in Hr.
    discriminate. }
  assert (Hrs : r <> s).
  { intros E. unfold h2, h1 in Hr.
    rewrite lookup_insert_ne in Hr by congruence.
    rewrite E, lookup_insert_eq in Hr. discriminate. }
  assert (Hph : h !! p = None).
  { unfold h1 in Hp. rewrite lookup_insert_ne in Hp by congruence. exact Hp. }
  assert (Hrh : h !! r = None).
  { unfold h2, h1 in Hr. rewrite !lookup_insert_ne in Hr by congruence.
    exact Hr. }
  unfold Store.bind at 1, Store.list_items at 1 in Hcall.
  assert (H3s : h3 !! s = Some (Store.List (sort_reverse cand_corr sims))).
  { unfold h3, h2, h1. rewrite !lookup_insert_ne by congruence.
    apply lookup_insert_eq. }
  rewrite H3s in Hcall.
  destruct (store_select_loop top_n p r (sort_reverse cand_corr sims)
              (fun E => Hrp (eq_sym E)) h3 ∅ [])
    as (entries' & accepted' & Hsel & Hacc).
  { unfold h3. rewrite lookup_insert_ne by congruence. apply lookup_insert_eq. }
  { apply lookup_insert_eq. }
  unfold Store.bind at 1 in Hcall. rewrite Hsel in Hcall.
  assert (Hframe : forall x y r' o, h !! r' = Some o ->
            <[r := x]> (<[p := y]> h3) !! r' = Some o).
  { intros x y r' o Ho.
    assert (r' <> r) by (intros ->; congruence).
    assert (r' <> p) by (intros ->; congruence).
    assert (r' <> s) by (intros ->; congruence).
    unfold h3, h2, h1. rewrite !lookup_insert_ne by congruence. exact Ho. }
  destruct (select_loop top_n ∅ [] (sort_reverse cand_corr sims))
    as [out|e]; simpl in Hcall; injection Hcall as <- <-; simpl.
  - rewrite !lookup_insert_eq, (Hacc out eq_refl).
    split; [apply Hframe |]. split; [reflexivity |].
    intros r' [= <-]. split; [exact Hrh |].
    exists out. apply lookup_insert_eq.
  - split; [apply Hframe |]. split; [reflexivity | discriminate].
Qed.
End store_facts.

(** ** Evaluations *)

Example ymd_epoch : Strftime.ymd 0 = "1970-01-01".
Proof. reflexivity. Qed.

Example ymd_leap_day : Strftime.ymd (19782 * Strftime.ms_per_day) = "2024-02-29".
Proof. reflexivity. Qed.

Example ymd_last_millisecond :
  Strftime.ymd (19723 * Strftime.ms_per_day + 86399999) = "2024-01-01".
Proof. reflexivity. Qed.

Example slice_tail : Iloc.slice_from [10; 20; 30; 40] (- 3) = [20; 30; 40].
Proof. reflexivity. Qed.

Example slice_tail_zero : Iloc.slice_from [10; 20; 30; 40] (- 0) = [10; 20; 30; 40].
Proof. reflexivity. Qed.

Example slice_clamped : Iloc.slice [10; 20; 30; 40] 2 7 = [30; 40].
Proof. reflexivity. Qed.

Example get_out_of_bounds : Iloc.get [10; 20; 30; 40] 4 = Raise IndexError.
Proof. reflexivity. Qed.

Example corrcoef_ramp : Np.corrcoef01 [5; 6; 7]%float [1; 2; 3]%float = Ok 1%float.
Proof. vm_compute. reflexivity. Qed.

Example corrcoef_constant : Np.corrcoef01 [1; 2]%float [0; 0]%float = Ok nan.
Proof. vm_compute. reflexivity. Qed.

Example corrcoef_shapes : Np.corrcoef01 [1; 2]%float [0]%float = Raise ValueError.
Proof. reflexivity. Qed.

(** Equal keys keep their order under [reverse=True]. *)
Example sort_reverse_ties :
  sort_reverse cand_corr
    [(1%float, 0, 0); (2%float, 1, 0); (1%float, 2, 0); (2%float, 3, 0)] =
    [(2%float, 1, 0); (2%float, 3, 0); (1%float, 0, 0); (1%float, 2, 0)].
Proof. vm_compute. reflexivity. Qed.

(** The candidate at index 1 shares its day with the better one at index 2
    and is passed over. *)
Example vee_half_daily_days :
  score_candidates vee_half_daily 3 1 =
    Ok [((-1)%float, 0, 129600000); (0%float, 1, 172800000);
        (1%float, 2, 216000000); (1%float, 3, 259200000)] /\
  find_similar_patterns vee_half_daily 3 1 5 =
    Ok [(1%float, 2, 216000000); (1%float, 3, 259200000);
        ((-1)%float, 0, 129600000)] /\
  cand_day (0%float, 1, 172800000) = "1970-01-03" /\
  cand_day <$> [(1%float, 2, 216000000); (1%float, 3, 259200000);
                ((-1)%float, 0, 129600000)] =
    ["1970-01-03"; "1970-01-04"; "1970-01-02"].
Proof. repeat split; vm_compute; reflexivity. Qed.

(** A negative [forward] lets the loop run past the end of the frame. *)
Example negative_forward_raises :
  find_similar_patterns dip 3 (-2) 3 = Raise IndexError.
Proof. vm_compute. reflexivity. Qed.

(** With [window = 0] the tail slice is the whole column. *)
Example zero_window_raises :
  find_similar_patterns dip 0 1 3 = Raise ValueError.
Proof. vm_compute. reflexivity. Qed.

(** Two calls, the second in the store the first has left: each returns a
    list of its own, and the two lists hold the same matches. *)
Example store_two_calls :
  let call := Store.find_similar_patterns vee_half_daily 3 1 5 in
  (call ∅).1 = Ok 3%positive /\
  (call (call ∅).2).1 = Ok 6%positive /\
  returned (call ∅) =
    Ok [(1%float, 2, 216000000); (1%float, 3, 259200000);
        ((-1)%float, 0, 129600000)] /\
  returned (call (call ∅).2) =
    Ok [(1%float, 2, 216000000); (1%float, 3, 259200000);
        ((-1)%float, 0, 129600000)].
Proof. vm_compute. repeat split; reflexivity. Qed.

(** A timestamp of the year 10000 has no text. *)
Example strftime_year_10000 :
  Strftime.strftime (2932897 * Strftime.ms_per_day) = Raise NotImplementedError /\
  Strftime.strftime (2932896 * Strftime.ms_per_day) = Ok "9999-12-31".
Proof. split; vm_compute; reflexivity. Qed.

(** On this rendering of [corrcoef] the window [0, 2], scored against
    itself, gets the binary64 number next below 1: the covariance 2 is
    divided twice by the rounded square root of 2. *)
Example self_score_below_one :
  Np.corrcoef01 [0; 2]%float [0; 2]%float = Ok below_one /\
  PrimFloat.eqb below_one 1 = false /\
  PrimFloat.ltb below_one 1 = true.
Proof. repeat split; vm_compute; reflexivity. Qed.

(** The clip at the end of [corrcoef] leaves a NaN or a number of the
    closed range from -1 to 1, whatever was computed before it. *)
Lemma corrcoef_in_range x y :
  length x = length y ->
  exists r,
    Np.corrcoef01 x y = Ok r /\
    (PrimFloat.is_nan r = true \/
     (PrimFloat.leb (-1) r = true /\ PrimFloat.leb r 1 = true)).
Proof.
  intros Hlen. unfold Np.corrcoef01.
  rewrite (proj2 (Nat.eqb_eq _ _) Hlen).
  eexists. split; [reflexivity |].
  unfold Np.corr01. cbv zeta. unfold Np.clip.
  match goal with
  | |- context [PrimFloat.ltb ?c (-1)] => generalize c
  end.
  intros c.
  destruct (PrimFloat.ltb c (-1)) eqn:Hlo; [right; split; reflexivity |].
  destruct (PrimFloat.ltb 1 c) eqn:Hhi; [right; split; reflexivity |].
  destruct (PrimFloat.is_nan c) eqn:Hn; [left; reflexivity | right].
  split; apply F64.not_ltb_leb; try assumption; reflexivity.
Qed.

(** ** The bound on the result *)

(** From [top_n = 1] on, the result holds [top_n] matches at most. *)
Lemma results_bounded df window forward top_n results :
  1 <= top_n ->
  find_similar_patterns df window forward top_n = Ok results ->
  Z.of_nat (length results) <= top_n.
Proof.
  intros Hn H. apply find_similar_patterns_Ok in H as (sims & _ & H).
  apply (select_loop_length _ _ _ _ _ H). simpl. lia.
Qed.

(** A result shorter than [top_n] has a match for every day on which a
    candidate exists. *)
Lemma results_all_days df window forward top_n similarities results :
  score_candidates df window forward = Ok similarities ->
  find_similar_patterns df window forward top_n = Ok results ->
  Z.of_nat (length results) < top_n ->
  forall c, c ∈ similarities -> cand_day c ∈ cand_day <$> results.
Proof.
  intros Hs H Hlt c Hc.
  rewrite (find_similar_patterns_scored _ _ _ _ _ Hs) in H.
  apply (select_loop_exhausted _ _ _ _ _ days_picked_empty H Hlt).
  rewrite sort_reverse_perm. exact Hc.
Qed.

(** With [top_n <= 0] and a candidate at hand, a result holds one match. *)
Lemma results_nonpos_top_n df window forward top_n similarities results :
  top_n <= 0 ->
  score_candidates df window forward = Ok similarities ->
  similarities <> [] ->
  find_similar_patterns df window forward top_n = Ok results ->
  exists c, results = [c].
Proof.
  intros Hn Hs Hne H. rewrite (find_similar_patterns_scored _ _ _ _ _ Hs) in H.
  destruct (sort_reverse cand_corr similarities) as [|c rest] eqn:E.
  - destruct Hne. apply Permutation_nil_r. rewrite <- E.
    symmetry. apply sort_reverse_perm.
  - exists c. apply (select_loop_nonpos _ _ _ _ Hn H).
Qed.

Lemma short_frame_returns_empty df window forward top_n :
  Z.of_nat (length df) <= window + forward ->
  find_similar_patterns df window forward top_n = Ok [].
Proof.
  intros H. unfold find_similar_patterns, score_candidates.
  rewrite range_nonpos by lia. reflexivity.
Qed.

(** ** The properties of the search *)

(** C1 (diversity). Whatever the frame and the parameters, no two matches
    returned by [find_similar_patterns] share a calendar day, the day being
    that of the match's anchor timestamp: the days of the result are without
    duplicates, and two positions of the result that hold matches of one day
    are one position. All along the selection, [picked] holds exactly the
    days of the matches accepted so far: a candidate is accepted only when
    its day is not in [picked], and its day is then recorded there. *)
Theorem results_distinct_days df window forward top_n results :
  find_similar_patterns df window forward top_n = Ok results ->
  NoDup (cand_day <$> results) /\
  (forall i j a b,
     results !! i = Some a -> results !! j = Some b ->
     cand_day a = cand_day b -> i = j) /\
  (forall picked accepted todo,
     rtc (step df window top_n) (initial df window forward)
       (Selecting picked accepted todo) ->
     days_picked picked accepted).
Proof.
  intros H. apply find_similar_patterns_Ok in H as (sims & _ & H).
  pose proof (select_loop_days_picked top_n (sort_reverse cand_corr sims)
                ∅ [] results days_picked_empty H) as Hnd.
  split; [exact Hnd |]. split.
  - intros i j a b Ha Hb Hd.
    apply (proj1 (NoDup_alt _) Hnd i j (cand_day a)); rewrite list_lookup_fmap.
    + rewrite Ha. reflexivity.
    + rewrite Hb, Hd. reflexivity.
  - intros picked accepted todo Hrun.
    apply (reachable_phase_ok _ _ _ _ _ Hrun).
Qed.

Lemma results_distinct_days_witness :
  find_similar_patterns vee_half_daily 3 1 5 =
    Ok [(1%float, 2, 216000000); (1%float, 3, 259200000);
        ((-1)%float, 0, 129600000)] /\
  NoDup (cand_day <$> [(1%float, 2, 216000000); (1%float, 3, 259200000);
                       ((-1)%float, 0, 129600000)]).
Proof.
  assert (Hr : find_similar_patterns vee_half_daily 3 1 5 =
    Ok [(1%float, 2, 216000000); (1%float, 3, 259200000);
        ((-1)%float, 0, 129600000)])
    by (vm_compute; reflexivity).
  split; [exact Hr |].
  exact (proj1 (results_distinct_days vee_half_daily 3 1 5 _ Hr)).
Defined.

(** C2 (bound). On the frame [ramp] with [window = 3], [forward = 1] and
    [top_n = 0], the search returns one match, the best one, and not the
    empty result: the length of [results] is tested after the candidate at
    hand has been appended. *)
Theorem top_n_zero_returns_one :
  find_similar_patterns ramp 3 1 0 = Ok [(1%float, 0, 259200000)].
Proof. vm_compute. reflexivity. Qed.

(** C3 (degenerate scores), counterexample. On the frame [dip] the window at
    index 1 is constant, its score is a NaN, and the candidate is among the
    matches returned. *)
Lemma nan_candidate_returned :
  Np.corrcoef01 [1; 2]%float [0; 0]%float = Ok nan /\
  PrimFloat.is_nan (cand_corr (nan, 1, 259200000)) = true /\
  exists results,
    find_similar_patterns dip 2 0 3 = Ok results /\
    (nan, 1, 259200000) ∈ results.
Proof.
  split; [vm_compute; reflexivity |]. split; [vm_compute; reflexivity |].
  eexists. split; [vm_compute; reflexivity |].
  apply elem_of_cons. right. apply elem_of_cons. left. reflexivity.
Qed.

(** C3 (degenerate scores), as the code has it. A candidate whose score
    is a NaN is not discarded, and no error is raised for it. For a
    positive [window] and a [forward] that is not negative, every start
    index whose window scores NaN against the current window has its
    candidate, with that score, in [similarities] and in the sorted list the
    selection walks. The only error the search can then raise is that of
    [strftime] on a timestamp it does not accept, whatever the scores. When
    the search returns the NaN candidate is the first match if the sort has
    put it first; and when fewer than [top_n] matches are returned, its day
    has a match in the result, the NaN candidate itself if no other
    candidate is anchored on that day. *)
Theorem nan_candidates_kept df window forward top_n i :
  0 < window -> 0 <= forward ->
  i ∈ range (Z.of_nat (length df) - window - forward) ->
  PrimFloat.is_nan
    (Np.corr01 (Iloc.slice_from (col_close df) (- window))
       (Iloc.slice (col_close df) i (i + window))) = true ->
  exists similarities c,
    score_candidates df window forward = Ok similarities /\
    c ∈ similarities /\ cand_idx c = i /\
    PrimFloat.is_nan (cand_corr c) = true /\
    c ∈ sort_reverse cand_corr similarities /\
    (forall e,
       find_similar_patterns df window forward top_n = Raise e ->
       e = NotImplementedError /\
       exists c', c' ∈ similarities /\
                  Strftime.supported (cand_ts c') = false) /\
    (forall results,
       find_similar_patterns df window forward top_n = Ok results ->
       (head (sort_reverse cand_corr similarities) = Some c ->
        head results = Some c) /\
       (Z.of_nat (length results) < top_n ->
        (exists m, m ∈ results /\ cand_day m = cand_day c) /\
        ((forall c', c' ∈ similarities -> cand_day c' = cand_day c ->
                     c' = c) ->
         c ∈ results))).
Proof.
  intros Hw Hf Hi Hnan.
  destruct (score_candidates_total df window forward Hw Hf)
    as (sims & Hs & Hidx).
  assert (Hc : exists c, c ∈ sims /\ cand_idx c = i).
  { rewrite <- Hidx in Hi. apply list_elem_of_fmap in Hi as (c & -> & Hc).
    exists c. split; [exact Hc | reflexivity]. }
  destruct Hc as (c & Hc & Hci).
  assert (Hsc : scored_at df window
                  (Iloc.slice_from (col_close df) (- window)) c).
  { pose proof Hs as Hs'. unfold score_candidates in Hs'.
    apply score_loop_Ok in Hs' as (new & -> & _ & Hall). simpl in Hc.
    rewrite Forall_forall in Hall. apply Hall, Hc. }
  exists sims, c. split; [exact Hs |]. split; [exact Hc |].
  split; [exact Hci |]. split.
  { destruct Hsc as [-> _]. rewrite Hci. exact Hnan. }
  split; [rewrite sort_reverse_perm; exact Hc |]. split.
  - intros e He. rewrite (find_similar_patterns_scored _ _ _ _ _ Hs) in He.
    apply select_loop_Raise in He as (-> & c' & Hc' & Hu).
    split; [reflexivity |]. exists c'. split; [| exact Hu].
    rewrite <- (sort_reverse_perm cand_corr sims). exact Hc'.
  - intros results Hr. split.
    + rewrite (find_similar_patterns_scored _ _ _ _ _ Hs) in Hr.
      intros Hh. destruct (sort_reverse cand_corr sims) as [|c' rest];
        [discriminate |].
      injection Hh as ->.
      destruct (select_loop_head _ _ _ _ Hr) as (more & ->). reflexivity.
    + intros Hlt.
      pose proof (results_all_days _ _ _ _ _ _ Hs Hr Hlt c Hc) as Hd.
      apply list_elem_of_fmap in Hd as (m & Hday & Hm).
      split; [exists m; split; [exact Hm | symmetry; exact Hday] |].
      intros Honly. replace c with m; [exact Hm |].
      apply Honly; [| symmetry; exact Hday].
      rewrite (find_similar_patterns_scored _ _ _ _ _ Hs) in Hr.
      destruct (select_loop_sublist _ _ _ _ _ Hr) as (new & -> & Hsub).
      simpl in Hm. rewrite <- (sort_reverse_perm cand_corr sims).
      eapply elem_of_sublist; eassumption.
Qed.

Lemma nan_candidates_kept_witness :
  0 < 2 /\ 0 <= 0 /\ 1 ∈ range (Z.of_nat (length dip) - 2 - 0) /\
  PrimFloat.is_nan
    (Np.corr01 (Iloc.slice_from (col_close dip) (- 2))
       (Iloc.slice (col_close dip) 1 (1 + 2))) = true /\
  exists similarities c,
    score_candidates dip 2 0 = Ok similarities /\
    c ∈ similarities /\ cand_idx c = 1 /\
    PrimFloat.is_nan (cand_corr c) = true.
Proof.
  assert (Hi : 1 ∈ range (Z.of_nat (length dip) - 2 - 0)).
  { apply elem_of_range. vm_compute. split; [discriminate | reflexivity]. }
  assert (Hnan : PrimFloat.is_nan
    (Np.corr01 (Iloc.slice_from (col_close dip) (- 2))
       (Iloc.slice (col_close dip) 1 (1 + 2))) = true)
    by (vm_compute; reflexivity).
  split; [lia |]. split; [lia |]. split; [exact Hi |]. split; [exact Hnan |].
  destruct (nan_candidates_kept dip 2 0 5 1) as (sims & c & Hs & Hc & Hci & Hn & _);
    [lia | lia | exact Hi | exact Hnan |].
  exists sims, c. repeat split; assumption.
Defined.

(** C4 (tie-break), counterexample. On the frame [dip] the scores are, by
    start index, just above -1, NaN and just below 1. Every comparison the
    sort makes involves the NaN and is false, the list stays as it was, and
    the lowest score stands before the highest. *)
Lemma sorted_list_out_of_order :
  score_candidates dip 2 0 =
    Ok [((- below_one)%float, 0, 172800000);
        (nan, 1, 259200000);
        (below_one, 2, 345600000)] /\
  sort_reverse cand_corr
    [((- below_one)%float, 0, 172800000);
     (nan, 1, 259200000);
     (below_one, 2, 345600000)] =
    [((- below_one)%float, 0, 172800000);
     (nan, 1, 259200000);
     (below_one, 2, 345600000)] /\
  PrimFloat.ltb (- below_one)%float below_one = true /\
  PrimFloat.leb nan (- below_one)%float = false.
Proof. repeat split; vm_compute; reflexivity. Qed.

(** C4 (tie-break), as the code has it. When no candidate has a NaN score,
    the sorted list is in non-increasing order of score, and of two
    candidates with equal scores the one with the smaller start index comes
    first. *)
Theorem sorted_by_score_then_index df window forward similarities :
  score_candidates df window forward = Ok similarities ->
  valid_scores similarities ->
  forall i j a b,
    (i < j)%nat ->
    sort_reverse cand_corr similarities !! i = Some a ->
    sort_reverse cand_corr similarities !! j = Some b ->
    score_ge a b /\
    (PrimFloat.eqb (cand_corr a) (cand_corr b) = true ->
     cand_idx a < cand_idx b).
Proof.
  intros Hs Hv i j a b Hij Ha Hb.
  destruct (StronglySorted_lookup _ _ _ _ _ _
              (sorted_ranked _ _ _ _ Hs Hv) Hij Ha Hb) as [Hge Htie].
  split; [exact Hge |]. intros He. apply Htie, F64.eqb_not_ltb, He.
Qed.

Lemma sorted_by_score_then_index_witness :
  score_candidates vee 3 1 =
    Ok [((-1)%float, 0, 259200000); (0%float, 1, 345600000);
        (1%float, 2, 432000000); (1%float, 3, 518400000)] /\
  score_ge (1%float, 2, 432000000) (1%float, 3, 518400000) /\
  (PrimFloat.eqb (cand_corr (1%float, 2, 432000000))
     (cand_corr (1%float, 3, 518400000)) = true ->
   cand_idx (1%float, 2, 432000000) < cand_idx (1%float, 3, 518400000)).
Proof.
  assert (Hs : score_candidates vee 3 1 =
    Ok [((-1)%float, 0, 259200000); (0%float, 1, 345600000);
        (1%float, 2, 432000000); (1%float, 3, 518400000)])
    by (vm_compute; reflexivity).
  split; [exact Hs |].
  apply (sorted_by_score_then_index vee 3 1 _ Hs) with (i := 0%nat) (j := 1%nat).
  - repeat constructor.
  - lia.
  - vm_compute. reflexivity.
  - vm_compute. reflexivity.
Defined.

(** C5 (ranking), counterexample. On the frame [flat] every score is a NaN;
    two matches are returned, and the first does not compare [>=] to the
    second. *)
Lemma nan_results_not_ranked :
  find_similar_patterns flat 2 1 2 =
    Ok [(nan, 0, 172800000); (nan, 1, 259200000)] /\
  PrimFloat.leb (cand_corr (nan, 1, 259200000)) (cand_corr (nan, 0, 172800000))
    = false.
Proof. split; vm_compute; reflexivity. Qed.

(** C5 (ranking), as the code has it. When no candidate has a NaN score, the
    result is in non-increasing order of score: each match compares [>=] to
    the one after it. *)
Theorem results_non_increasing df window forward top_n similarities results :
  score_candidates df window forward = Ok similarities ->
  valid_scores similarities ->
  find_similar_patterns df window forward top_n = Ok results ->
  forall i a b,
    results !! i = Some a -> results !! S i = Some b -> score_ge a b.
Proof.
  intros Hs Hv H i a b Ha Hb.
  rewrite (find_similar_patterns_scored _ _ _ _ _ Hs) in H.
  destruct (select_loop_sublist _ _ _ _ _ H) as (new & -> & Hsub).
  simpl in Ha, Hb.
  pose proof (StronglySorted_sublist _ _ _ Hsub (sorted_ranked _ _ _ _ Hs Hv))
    as Hr.
  apply (StronglySorted_lookup _ _ i (S i) a b Hr); [lia | assumption..].
Qed.

Lemma results_non_increasing_witness :
  score_candidates vee_half_daily 3 1 =
    Ok [((-1)%float, 0, 129600000); (0%float, 1, 172800000);
        (1%float, 2, 216000000); (1%float, 3, 259200000)] /\
  find_similar_patterns vee_half_daily 3 1 5 =
    Ok [(1%float, 2, 216000000); (1%float, 3, 259200000);
        ((-1)%float, 0, 129600000)] /\
  score_ge (1%float, 3, 259200000) ((-1)%float, 0, 129600000).
Proof.
  assert (Hs : score_candidates vee_half_daily 3 1 =
    Ok [((-1)%float, 0, 129600000); (0%float, 1, 172800000);
        (1%float, 2, 216000000); (1%float, 3, 259200000)])
    by (vm_compute; reflexivity).
  assert (Hr : find_similar_patterns vee_half_daily 3 1 5 =
    Ok [(1%float, 2, 216000000); (1%float, 3, 259200000);
        ((-1)%float, 0, 129600000)])
    by (vm_compute; reflexivity).
  split; [exact Hs |]. split; [exact Hr |].
  eapply (results_non_increasing vee_half_daily 3 1 5) with (i := 1%nat).
  - exact Hs.
  - repeat constructor.
  - exact Hr.
  - reflexivity.
  - reflexivity.
Defined.

(** C6 (enumeration and anchor). For a positive [window] and a [forward]
    that is not negative, the scoring loop returns a candidate for every
    start index of [0, len(df) - window - forward), in that order, and for
    no other; each candidate holds the score of the window at its start
    index against the last [window] closing prices, and its timestamp is
    that of the bar at position [start index + window]. *)
Theorem candidates_enumerated df window forward :
  0 < window -> 0 <= forward ->
  exists similarities,
    score_candidates df window forward = Ok similarities /\
    cand_idx <$> similarities =
      range (Z.of_nat (length df) - window - forward) /\
    forall c, c ∈ similarities ->
      scored_at df window (Iloc.slice_from (col_close df) (- window)) c /\
      exists bar,
        df !! Z.to_nat (cand_idx c + window) = Some bar /\
        cand_ts c = timestamp bar.
Proof.
  intros Hw Hf.
  destruct (score_candidates_total df window forward Hw Hf)
    as (sims & Hs & Hidx).
  exists sims. split; [exact Hs |]. split; [exact Hidx |].
  intros c Hc.
  assert (Hsc : scored_at df window
                  (Iloc.slice_from (col_close df) (- window)) c).
  { unfold score_candidates in Hs.
    apply score_loop_Ok in Hs as (new & -> & _ & Hall). simpl in Hc.
    rewrite Forall_forall in Hall. apply Hall, Hc. }
  split; [exact Hsc |].
  assert (Hi : 0 <= cand_idx c).
  { apply (list_elem_of_fmap_2 cand_idx) in Hc. rewrite Hidx in Hc.
    apply elem_of_range in Hc. lia. }
  destruct Hsc as [_ Hts].
  apply IlocFacts.get_Ok_nonneg in Hts; [| lia].
  unfold col_timestamp in Hts.
  change (map timestamp df) with (timestamp <$> df) in Hts.
  apply list_lookup_fmap_Some in Hts as (bar & Hts & Hbar).
  exists bar. split; assumption.
Qed.

Lemma candidates_enumerated_witness :
  0 < 3 /\ 0 <= 1 /\
  exists similarities,
    score_candidates vee 3 1 = Ok similarities /\
    cand_idx <$> similarities = [0; 1; 2; 3].
Proof.
  split; [lia |]. split; [lia |].
  destruct (candidates_enumerated vee 3 1) as (sims & Hs & Hidx & _);
    [lia | lia |].
  exists sims. split; [exact Hs | exact Hidx].
Defined.

(** C7 (short series), counterexample. A frame of two bars with
    [window = 2] and [forward = 1], one bar short of [window + forward],
    gets a normal, empty result. *)
Lemma short_series_no_error :
  Z.of_nat (length (daily [1; 2]%float)) = 2 + 1 - 1 /\
  find_similar_patterns (daily [1; 2]%float) 2 1 3 = Ok [].
Proof. split; vm_compute; reflexivity. Qed.

(** C7 (short series), as the code has it. For every frame shorter than
    [window + forward] the search returns the empty list as a normal result;
    nothing is raised. *)
Theorem short_series_returns_empty df window forward top_n :
  Z.of_nat (length df) < window + forward ->
  find_similar_patterns df window forward top_n = Ok [].
Proof. intros H. apply short_frame_returns_empty. lia. Qed.

Lemma short_series_returns_empty_witness :
  Z.of_nat (length (daily [1; 2]%float)) < 2 + 1 /\
  find_similar_patterns (daily [1; 2]%float) 2 1 3 = Ok [].
Proof.
  split; [vm_compute; reflexivity |].
  apply short_series_returns_empty. vm_compute. reflexivity.
Defined.

(** C8 (determinism). Two calls of [find_similar_patterns] with the same
    frame and the same [window], [forward] and [top_n] give the same
    outcome, the same matches with the same scores in the same order or the
    same exception, whatever the store holds when each call starts: a call
    reads no object that was there before it, its lists and its dict being
    new ones. So a second call made in the store the first has left gives
    what the first gave; it leaves the list the first returned as it was;
    and what a call gives is what the function [find_similar_patterns]
    computes from the frame and the three numbers alone. *)
Theorem repeated_calls_agree df window forward top_n h h' :
  let call := Store.find_similar_patterns df window forward top_n in
  returned (call h) = returned (call h') /\
  returned (call (call h).2) = returned (call h) /\
  returned ((call h).1, (call (call h).2).2) = returned (call h) /\
  returned (call h) = find_similar_patterns df window forward top_n.
Proof.
  intros call. unfold call.
  destruct (store_find_similar_patterns df window forward top_n h)
    as (_ & Hh & Hnew).
  destruct (store_find_similar_patterns df window forward top_n h')
    as (_ & Hh' & _).
  destruct (store_find_similar_patterns df window forward top_n
              (Store.find_similar_patterns df window forward top_n h).2)
    as (Hframe & Hagain & _).
  split; [congruence |]. split; [congruence |]. split; [| exact Hh].
  destruct (Store.find_similar_patterns df window forward top_n h)
    as [[r|e] h1]; simpl in *; [| reflexivity].
  destruct (Hnew r eq_refl) as (_ & items & Hr).
  rewrite (Hframe r _ Hr), Hr. reflexivity.
Qed.

(** C10 (loop safety). For [window >= 0] and [forward >= 0], at every index
    [i] of [range(len(df) - window - forward)] the slice [i : i + window] of
    the closing prices has exactly [window] elements, so that the test
    [len(past) < window] is false and no candidate is skipped, and the
    position [i + window] lies within the frame, so that the lookup of the
    timestamp succeeds. *)
Theorem loop_index_in_bounds df window forward i :
  0 <= window -> 0 <= forward ->
  i ∈ range (Z.of_nat (length df) - window - forward) ->
  Z.of_nat (length (Iloc.slice (col_close df) i (i + window))) = window /\
  (Z.of_nat (length (Iloc.slice (col_close df) i (i + window))) <? window)
    = false /\
  0 <= i + window < Z.of_nat (length df) /\
  exists bar,
    df !! Z.to_nat (i + window) = Some bar /\
    Iloc.get (col_timestamp df) (i + window) = Ok (timestamp bar).
Proof.
  intros Hw Hf Hi. apply elem_of_range in Hi.
  assert (Hlen : Z.of_nat (length (Iloc.slice (col_close df) i (i + window)))
                 = window).
  { apply IlocFacts.slice_length; [lia | lia |].
    unfold col_close. rewrite length_map. lia. }
  split; [exact Hlen |]. split; [rewrite Hlen; apply Z.ltb_irrefl |].
  split; [lia |].
  destruct (IlocFacts.get_in_range (col_timestamp df) (i + window))
    as (ts & Hget & Hlook).
  { unfold col_timestamp. rewrite length_map. lia. }
  unfold col_timestamp in Hlook.
  change (map timestamp df) with (timestamp <$> df) in Hlook.
  apply list_lookup_fmap_Some in Hlook as (bar & -> & Hbar).
  exists bar. split; assumption.
Qed.

Lemma loop_index_in_bounds_witness :
  0 <= 3 /\ 0 <= 1 /\ 2 ∈ range (Z.of_nat (length vee) - 3 - 1) /\
  Z.of_nat (length (Iloc.slice (col_close vee) 2 (2 + 3))) = 3.
Proof.
  assert (Hi : 2 ∈ range (Z.of_nat (length vee) - 3 - 1)).
  { apply elem_of_range. vm_compute. split; [discriminate | reflexivity]. }
  split; [lia |]. split; [lia |]. split; [exact Hi |].
  apply (loop_index_in_bounds vee 3 1 2); [lia | lia | exact Hi].
Defined.

(** ** More on comparisons, slices and the loops *)

Lemma leb_refl_number x : PrimFloat.is_nan x = false -> PrimFloat.leb x x = true.
Proof.
  intros Hx. apply F64.not_ltb_leb; [exact Hx | exact Hx |].
  rewrite ltb_spec. unfold SFltb.
  pose proof (F64.SFcompare_opp (Prim2SF x) (Prim2SF x)) as H.
  destruct (SFcompare (Prim2SF x) (Prim2SF x)) as [[]|]; simpl in H;
    congruence.
Qed.

Lemma slice_length_le {A} (l : list A) (a b : Z) :
  (length (Iloc.slice l a b) <= length l)%nat.
Proof.
  unfold Iloc.slice. rewrite length_take, length_drop. lia.
Qed.

Lemma score_loop_app df current window idxs1 idxs2 : forall similarities,
  score_loop df current window similarities (idxs1 ++ idxs2) =
    py_bind (score_loop df current window similarities idxs1)
      (fun similarities' => score_loop df current window similarities' idxs2).
Proof.
  induction idxs1 as [|i idxs1 IH]; intros sims; simpl; [reflexivity |].
  destruct (score_step df current window sims i); simpl; [apply IH | reflexivity].
Qed.

(** A window longer than the frame is skipped at every index. *)
Lemma score_loop_skips df current window idxs : forall similarities,
  Z.of_nat (length df) < window ->
  score_loop df current window similarities idxs = Ok similarities.
Proof.
  intros sims Hw. induction idxs as [|i idxs IH]; simpl; [reflexivity |].
  unfold score_step.
  pose proof (slice_length_le (col_close df) i (i + window)) as Hle.
  unfold col_close in Hle at 2. rewrite length_map in Hle.
  destruct (Z.ltb_spec (Z.of_nat (length (Iloc.slice (col_close df) i (i + window))))
              window); [| lia].
  simpl. exact IH.
Qed.

(** A position read in a column holds one of its entries. *)
Lemma get_Ok_elem {A} (l : list A) (k : Z) a : Iloc.get l k = Ok a -> a ∈ l.
Proof.
  unfold Iloc.get. destruct (_ && _); [| discriminate].
  destruct (l !! _) as [a'|] eqn:E; [| discriminate].
  intros [= <-]. eapply list_elem_of_lookup_2, E.
Qed.

(** The timestamp of a candidate is that of a bar of the frame. *)
Lemma candidates_from_frame df window forward similarities :
  score_candidates df window forward = Ok similarities ->
  forall c, c ∈ similarities ->
    exists bar, bar ∈ df /\ timestamp bar = cand_ts c.
Proof.
  unfold score_candidates. intros Hs c Hc.
  apply score_loop_Ok in Hs as (new & -> & _ & Hall). simpl in Hc.
  rewrite Forall_forall in Hall. destruct (Hall c Hc) as [_ Hts].
  apply get_Ok_elem in Hts. unfold col_timestamp in Hts.
  apply list_elem_of_fmap in Hts as (bar & E & Hbar).
  exists bar. split; [exact Hbar | symmetry; exact E].
Qed.

(** The selection accepts a candidate only when no candidate walked before
    it has its day. *)
Lemma select_loop_first top_n similarities : forall picked results out,
  select_loop top_n picked results similarities = Ok out ->
  exists new,
    out = results ++ new /\
    forall m, m ∈ new ->
      picked !! cand_day m = None /\
      exists before after,
        similarities = before ++ m :: after /\
        forall c, c ∈ before -> cand_day c <> cand_day m.
Proof.
  induction similarities as [|c rest IH]; intros picked results out H.
  - simpl in H. injection H as <-. exists []. rewrite app_nil_r.
    split; [reflexivity |].
    intros m Hm. apply elem_of_nil in Hm as [].
  - apply select_loop_cons in H as (picked' & results' & Hstep & Hrest).
    apply select_step_cases in Hstep as [(Hn & -> & ->) | (Hp & -> & ->)].
    + assert (Hc : forall new, (forall m, m ∈ new ->
          <[cand_day c:=true]> picked !! cand_day m = None /\
          exists before after, rest = before ++ m :: after /\
            forall c', c' ∈ before -> cand_day c' <> cand_day m) ->
        forall m, m ∈ c :: new ->
          picked !! cand_day m = None /\
          exists before after, c :: rest = before ++ m :: after /\
            forall c', c' ∈ before -> cand_day c' <> cand_day m).
      { intros new Hnew m Hm. apply elem_of_cons in Hm as [-> | Hm].
        - split; [exact Hn |]. exists [], rest. split; [reflexivity |].
          intros c' Hc'. apply elem_of_nil in Hc' as [].
        - destruct (Hnew m Hm) as (Hl & before & after & -> & Hb).
          apply lookup_insert_None in Hl as [Hl Hne].
          split; [exact Hl |]. exists (c :: before), after.
          split; [reflexivity |].
          intros c' Hc'. apply elem_of_cons in Hc' as [-> | Hc'];
            [exact Hne | apply Hb, Hc']. }
      destruct Hrest as [[_ ->] | [_ Hrest]].
      * exists [c]. split; [reflexivity |]. apply (Hc []).
        intros m Hm. apply elem_of_nil in Hm as [].
      * apply IH in Hrest as (new & -> & Hnew).
        exists (c :: new). rewrite <- app_assoc. split; [reflexivity |].
        apply Hc, Hnew.
    + destruct Hrest as [[_ ->] | [_ Hrest]].
      * exists []. rewrite app_nil_r. split; [reflexivity |].
        intros m Hm. apply elem_of_nil in Hm as [].
      * apply IH in Hrest as (new & -> & Hnew).
        exists new. split; [reflexivity |].
        intros m Hm. destruct (Hnew m Hm) as (Hl & before & after & -> & Hb).
        split; [exact Hl |]. exists (c :: before), after.
        split; [reflexivity |].
        intros c' Hc'. apply elem_of_cons in Hc' as [-> | Hc'];
          [| apply Hb, Hc'].
        intros E. rewrite E, Hl in Hp. destruct Hp; discriminate.
Qed.

(** Below the bound the loop with the smaller [top_n] returns the first
    matches of the loop with the larger one. *)
Lemma select_loop_prefix n n' similarities : forall picked results out out',
  Z.of_nat (length results) < n -> n <= n' ->
  select_loop n picked results similarities = Ok out ->
  select_loop n' picked results similarities = Ok out' ->
  out = take (Z.to_nat n) out'.
Proof.
  induction similarities as [|c rest IH];
    intros picked results out out' Hlt Hle H H'.
  - simpl in H, H'. injection H as <-. injection H' as <-.
    rewrite take_ge by lia. reflexivity.
  - apply select_loop_cons in H as (p1 & r1 & Hs1 & H1).
    apply select_loop_cons in H' as (p2 & r2 & Hs2 & H2).
    rewrite Hs1 in Hs2. injection Hs2 as <- <-.
    pose proof (select_step_length _ _ _ _ _ Hs1) as Hlen.
    destruct H1 as [[Hb ->] | [Hb H1]].
    + assert (Hn : Z.to_nat n = length r1) by lia.
      destruct H2 as [[_ ->] | [_ H2]].
      * rewrite take_ge by lia. reflexivity.
      * apply select_loop_sublist in H2 as (new & -> & _).
        rewrite Hn, take_app_length. reflexivity.
    + destruct H2 as [[Hb' ->] | [_ H2]]; [lia |].
      eapply IH; eassumption.
Qed.

(** ** Further properties of the search *)

(** With a positive [window] and a [forward] that is not negative the
    scoring raises nothing, and a search that returns has matches exactly
    when the frame has more than [window + forward] bars. *)
Lemma find_similar_patterns_empty df window forward top_n results :
  0 < window -> 0 <= forward ->
  find_similar_patterns df window forward top_n = Ok results ->
  (results = [] <-> Z.of_nat (length df) <= window + forward).
Proof.
  intros Hw Hf H.
  destruct (score_candidates_total df window forward Hw Hf)
    as (sims & Hs & Hidx).
  rewrite (find_similar_patterns_scored _ _ _ _ _ Hs) in H.
  assert (Hlen : length sims =
                   Z.to_nat (Z.of_nat (length df) - window - forward)).
  { rewrite <- (length_fmap cand_idx sims), Hidx. apply length_seqZ. }
  pose proof (sort_reverse_perm cand_corr sims) as Hperm.
  destruct (sort_reverse cand_corr sims) as [|c rest].
  - apply Permutation_length in Hperm. simpl in Hperm, H.
    injection H as <-. split; [intros _; lia | reflexivity].
  - apply Permutation_length in Hperm. simpl in Hperm.
    destruct (select_loop_head _ _ _ _ H) as (more & ->).
    split; [discriminate | lia].
Qed.

(** With such parameters the one exception is that of [strftime], on the
    timestamp of a bar of the frame. *)
Lemma find_similar_patterns_Raise df window forward top_n e :
  0 < window -> 0 <= forward ->
  find_similar_patterns df window forward top_n = Raise e ->
  e = NotImplementedError /\
  exists bar, bar ∈ df /\ Strftime.supported (timestamp bar) = false.
Proof.
  intros Hw Hf H.
  destruct (score_candidates_total df window forward Hw Hf)
    as (sims & Hs & _).
  rewrite (find_similar_patterns_scored _ _ _ _ _ Hs) in H.
  apply select_loop_Raise in H as (-> & c & Hc & Hu).
  split; [reflexivity |].
  rewrite sort_reverse_perm in Hc.
  destruct (candidates_from_frame _ _ _ _ Hs c Hc) as (bar & Hbar & E).
  exists bar. split; [exact Hbar |]. rewrite E. exact Hu.
Qed.

(** X1. For a positive [window] and a [forward] that is not negative, the
    one exception the search can raise is the [NotImplementedError] of
    [strftime], on a bar whose timestamp lies outside the years 1 to 9999.
    On a frame without such a bar the search returns a list, whatever
    [top_n]; and a list returned is empty exactly when the frame has no
    more than [window + forward] bars. *)
Theorem valid_parameters_raise_on_dates_only df window forward top_n :
  0 < window -> 0 <= forward ->
  (forall e, find_similar_patterns df window forward top_n = Raise e ->
     e = NotImplementedError /\
     exists bar, bar ∈ df /\ Strftime.supported (timestamp bar) = false) /\
  (Forall (fun bar => Strftime.supported (timestamp bar) = true) df ->
   exists results, find_similar_patterns df window forward top_n = Ok results) /\
  (forall results, find_similar_patterns df window forward top_n = Ok results ->
     (results = [] <-> Z.of_nat (length df) <= window + forward)).
Proof.
  intros Hw Hf. split; [| split].
  - intros e. apply find_similar_patterns_Raise; assumption.
  - intros Hall.
    destruct (find_similar_patterns df window forward top_n) as [results|e]
      eqn:H; [exists results; reflexivity |].
    apply find_similar_patterns_Raise in H as (_ & bar & Hbar & Hu);
      [| assumption | assumption].
    rewrite Forall_forall in Hall. rewrite (Hall bar Hbar) in Hu.
    discriminate.
  - intros results. apply find_similar_patterns_empty; assumption.
Qed.

Lemma valid_parameters_raise_on_dates_only_witness :
  0 < 3 /\ 0 <= 1 /\
  Forall (fun bar => Strftime.supported (timestamp bar) = true) vee /\
  exists results,
    find_similar_patterns vee 3 1 2 = Ok results /\
    (results = [] <-> Z.of_nat (length vee) <= 3 + 1).
Proof.
  assert (Hall : Forall (fun bar => Strftime.supported (timestamp bar) = true)
                   vee)
    by (repeat constructor).
  split; [lia |]. split; [lia |]. split; [exact Hall |].
  destruct (valid_parameters_raise_on_dates_only vee 3 1 2)
    as (_ & Hret & Hempty); [lia | lia |].
  destruct (Hret Hall) as (results & Hr).
  exists results. split; [exact Hr | apply Hempty, Hr].
Defined.

(** X2. From [top_n = 1] on, the number of matches returned is the smaller
    of [top_n] and the number of distinct calendar days on which a candidate
    is anchored. *)
Theorem result_length_exact df window forward top_n similarities results :
  1 <= top_n ->
  score_candidates df window forward = Ok similarities ->
  find_similar_patterns df window forward top_n = Ok results ->
  Z.of_nat (length results) =
    Z.min top_n (Z.of_nat (distinct_days similarities)).
Proof.
  intros Hn Hs H.
  pose proof (results_bounded _ _ _ _ _ Hn H) as Hle.
  pose proof (results_all_days _ _ _ _ _ _ Hs H) as Hall.
  rewrite (find_similar_patterns_scored _ _ _ _ _ Hs) in H.
  set (sorted := sort_reverse cand_corr similarities) in *.
  assert (Hnd : NoDup (cand_day <$> results))
    by apply (select_loop_days_picked _ _ _ _ _ days_picked_empty H).
  assert (Hsub : forall d, d ∈ cand_day <$> results ->
                   d ∈ remove_dups (cand_day <$> similarities)).
  { intros d Hd. rewrite elem_of_remove_dups.
    apply list_elem_of_fmap in Hd as (m & -> & Hm).
    apply list_elem_of_fmap_2.
    destruct (select_loop_sublist _ _ _ _ _ H) as (new & E & Hsl).
    rewrite E in Hm. simpl in Hm.
    rewrite <- (sort_reverse_perm cand_corr similarities).
    eapply elem_of_sublist; eassumption. }
  assert (Hlen : (length results <= distinct_days similarities)%nat).
  { unfold distinct_days. rewrite <- (length_fmap cand_day results).
    apply submseteq_length, NoDup_submseteq; assumption. }
  destruct (Z.lt_ge_cases (Z.of_nat (length results)) top_n) as [Hlt | Hge];
    [| lia].
  assert (Hperm : cand_day <$> results ≡ₚ remove_dups (cand_day <$> similarities)).
  { apply NoDup_Permutation; [exact Hnd | apply NoDup_remove_dups |].
    intros d. split; [apply Hsub |].
    intros Hd. rewrite elem_of_remove_dups in Hd.
    apply list_elem_of_fmap in Hd as (c & -> & Hc). apply Hall; assumption. }
  apply Permutation_length in Hperm. rewrite length_fmap in Hperm.
  unfold distinct_days. lia.
Qed.

Lemma result_length_exact_witness :
  1 <= 2 /\
  score_candidates vee_half_daily 3 1 =
    Ok [((-1)%float, 0, 129600000); (0%float, 1, 172800000);
        (1%float, 2, 216000000); (1%float, 3, 259200000)] /\
  find_similar_patterns vee_half_daily 3 1 2 =
    Ok [(1%float, 2, 216000000); (1%float, 3, 259200000)] /\
  Z.of_nat (length [(1%float, 2, 216000000); (1%float, 3, 259200000)]) =
    Z.min 2 (Z.of_nat (distinct_days
      [((-1)%float, 0, 129600000); (0%float, 1, 172800000);
       (1%float, 2, 216000000); (1%float, 3, 259200000)])).
Proof.
  split; [lia |].
  split; [vm_compute; reflexivity |]. split; [vm_compute; reflexivity |].
  apply (result_length_exact vee_half_daily 3 1 2); [lia | |];
    vm_compute; reflexivity.
Defined.

(** Every match is one of the candidates scored: its start index is one
    the loop has walked. *)
Lemma results_scored df window forward top_n results :
  find_similar_patterns df window forward top_n = Ok results ->
  forall m, m ∈ results ->
    0 <= cand_idx m < Z.of_nat (length df) - window - forward /\
    scored_at df window (Iloc.slice_from (col_close df) (- window)) m.
Proof.
  intros H m Hm. apply find_similar_patterns_Ok in H as (sims & Hs & H).
  destruct (select_loop_sublist _ _ _ _ _ H) as (new & E & Hsl).
  rewrite E in Hm. simpl in Hm.
  assert (Hin : m ∈ sims).
  { rewrite <- (sort_reverse_perm cand_corr sims).
    eapply elem_of_sublist; eassumption. }
  unfold score_candidates in Hs.
  apply score_loop_Ok in Hs as (new' & -> & Hidx & Hall). simpl in Hin.
  split.
  - apply elem_of_range. eapply elem_of_sublist; [| exact Hidx].
    apply (list_elem_of_fmap_2 cand_idx), Hin.
  - rewrite Forall_forall in Hall. apply Hall, Hin.
Qed.

(** X3. Whatever the parameters, every match returned is a candidate the
    scoring loop has scored: its start index lies in
    [0, len(df) - window - forward), its score is that of the window at that
    index against the tail window, and its timestamp is the one found at
    [start index + window]. *)
Theorem matches_are_candidates df window forward top_n results :
  find_similar_patterns df window forward top_n = Ok results ->
  forall m, m ∈ results ->
    0 <= cand_idx m < Z.of_nat (length df) - window - forward /\
    scored_at df window (Iloc.slice_from (col_close df) (- window)) m.
Proof. apply results_scored. Qed.

Lemma matches_are_candidates_witness :
  find_similar_patterns vee_half_daily 3 1 5 =
    Ok [(1%float, 2, 216000000); (1%float, 3, 259200000);
        ((-1)%float, 0, 129600000)] /\
  0 <= cand_idx (1%float, 3, 259200000)
    < Z.of_nat (length vee_half_daily) - 3 - 1.
Proof.
  assert (Hr : find_similar_patterns vee_half_daily 3 1 5 =
    Ok [(1%float, 2, 216000000); (1%float, 3, 259200000);
        ((-1)%float, 0, 129600000)])
    by (vm_compute; reflexivity).
  split; [exact Hr |].
  apply (matches_are_candidates vee_half_daily 3 1 5 _ Hr).
  apply elem_of_cons. right. apply elem_of_cons. left. reflexivity.
Defined.

(** X4. When no candidate has a NaN score, the match returned for a day is
    the best candidate of that day: its score is at least that of every
    candidate anchored on the same day, and a candidate of that day with an
    equal score starts later. *)
Theorem match_is_best_of_its_day df window forward top_n similarities results :
  score_candidates df window forward = Ok similarities ->
  valid_scores similarities ->
  find_similar_patterns df window forward top_n = Ok results ->
  forall m c,
    m ∈ results -> c ∈ similarities -> cand_day c = cand_day m ->
    score_ge m c /\
    (c <> m -> PrimFloat.eqb (cand_corr m) (cand_corr c) = true ->
     cand_idx m < cand_idx c).
Proof.
  intros Hs Hv H m c Hm Hc Hday.
  pose proof (sorted_ranked _ _ _ _ Hs Hv) as Hsorted.
  rewrite (find_similar_patterns_scored _ _ _ _ _ Hs) in H.
  destruct (select_loop_first _ _ _ _ _ H) as (new & E & Hfirst).
  rewrite E in Hm. simpl in Hm.
  destruct (Hfirst m Hm) as (_ & before & after & Esorted & Hbefore).
  rewrite Esorted in Hsorted.
  apply StronglySorted_app in Hsorted as (_ & _ & Hafter).
  apply StronglySorted_cons in Hafter as [Hafter _].
  rewrite <- (sort_reverse_perm cand_corr similarities), Esorted in Hc.
  apply elem_of_app in Hc as [Hc | Hc];
    [destruct (Hbefore c Hc Hday) |].
  apply elem_of_cons in Hc as [-> | Hc].
  - split; [| congruence]. unfold score_ge. apply leb_refl_number.
    unfold valid_scores in Hv. rewrite Forall_forall in Hv. apply Hv.
    rewrite <- (sort_reverse_perm cand_corr similarities), Esorted.
    apply elem_of_app. right. apply elem_of_cons. left. reflexivity.
  - rewrite Forall_forall in Hafter. destruct (Hafter c Hc) as [Hge Htie].
    split; [exact Hge |]. intros _ He. apply Htie, F64.eqb_not_ltb, He.
Qed.

Lemma match_is_best_of_its_day_witness :
  score_candidates vee_half_daily 3 1 =
    Ok [((-1)%float, 0, 129600000); (0%float, 1, 172800000);
        (1%float, 2, 216000000); (1%float, 3, 259200000)] /\
  find_similar_patterns vee_half_daily 3 1 5 =
    Ok [(1%float, 2, 216000000); (1%float, 3, 259200000);
        ((-1)%float, 0, 129600000)] /\
  cand_day (0%float, 1, 172800000) = cand_day (1%float, 2, 216000000) /\
  score_ge (1%float, 2, 216000000) (0%float, 1, 172800000).
Proof.
  assert (Hs : score_candidates vee_half_daily 3 1 =
    Ok [((-1)%float, 0, 129600000); (0%float, 1, 172800000);
        (1%float, 2, 216000000); (1%float, 3, 259200000)])
    by (vm_compute; reflexivity).
  assert (Hr : find_similar_patterns vee_half_daily 3 1 5 =
    Ok [(1%float, 2, 216000000); (1%float, 3, 259200000);
        ((-1)%float, 0, 129600000)])
    by (vm_compute; reflexivity).
  split; [exact Hs |]. split; [exact Hr |].
  split; [vm_compute; reflexivity |].
  eapply (match_is_best_of_its_day vee_half_daily 3 1 5).
  - exact Hs.
  - repeat constructor.
  - exact Hr.
  - apply elem_of_cons. left. reflexivity.
  - apply elem_of_cons. right. apply elem_of_cons. left. reflexivity.
  - vm_compute. reflexivity.
Defined.

(** X5. When no candidate has a NaN score, the first match returned is the
    best candidate of all: its score is at least that of every candidate,
    and every other candidate with an equal score starts later. *)
Theorem first_match_is_best df window forward top_n similarities results :
  score_candidates df window forward = Ok similarities ->
  valid_scores similarities ->
  find_similar_patterns df window forward top_n = Ok results ->
  forall m, head results = Some m ->
    forall c, c ∈ similarities ->
      score_ge m c /\
      (c <> m -> PrimFloat.eqb (cand_corr m) (cand_corr c) = true ->
       cand_idx m < cand_idx c).
Proof.
  intros Hs Hv H m Hm c Hc.
  pose proof (sorted_ranked _ _ _ _ Hs Hv) as Hsorted.
  rewrite (find_similar_patterns_scored _ _ _ _ _ Hs) in H.
  assert (Hin : forall x, x ∈ sort_reverse cand_corr similarities ->
                  x ∈ similarities).
  { intros x Hx. rewrite <- (sort_reverse_perm cand_corr similarities). exact Hx. }
  rewrite <- (sort_reverse_perm cand_corr similarities) in Hc.
  destruct (sort_reverse cand_corr similarities) as [|m' rest].
  { simpl in H. injection H as <-. discriminate. }
  destruct (select_loop_head _ _ _ _ H) as (more & E).
  rewrite E in Hm. injection Hm as ->.
  apply StronglySorted_cons in Hsorted as [Hrest _].
  apply elem_of_cons in Hc as [-> | Hc].
  - split; [| congruence]. unfold score_ge. apply leb_refl_number.
    unfold valid_scores in Hv. rewrite Forall_forall in Hv. apply Hv, Hin.
    apply elem_of_cons. left. reflexivity.
  - rewrite Forall_forall in Hrest. destruct (Hrest c Hc) as [Hge Htie].
    split; [exact Hge |]. intros _ He. apply Htie, F64.eqb_not_ltb, He.
Qed.

Lemma first_match_is_best_witness :
  score_candidates vee 3 1 =
    Ok [((-1)%float, 0, 259200000); (0%float, 1, 345600000);
        (1%float, 2, 432000000); (1%float, 3, 518400000)] /\
  find_similar_patterns vee 3 1 1 = Ok [(1%float, 2, 432000000)] /\
  score_ge (1%float, 2, 432000000) (1%float, 3, 518400000) /\
  cand_idx (1%float, 2, 432000000) < cand_idx (1%float, 3, 518400000).
Proof.
  assert (Hs : score_candidates vee 3 1 =
    Ok [((-1)%float, 0, 259200000); (0%float, 1, 345600000);
        (1%float, 2, 432000000); (1%float, 3, 518400000)])
    by (vm_compute; reflexivity).
  assert (Hr : find_similar_patterns vee 3 1 1 = Ok [(1%float, 2, 432000000)])
    by (vm_compute; reflexivity).
  split; [exact Hs |]. split; [exact Hr |].
  assert (Hc : ((1%float, 3, 518400000) : Cand) ∈
                 [((-1)%float, 0, 259200000); (0%float, 1, 345600000);
                  (1%float, 2, 432000000); (1%float, 3, 518400000)]).
  { do 3 (apply elem_of_cons; right). apply elem_of_cons. left. reflexivity. }
  assert (Hv : valid_scores
                 [((-1)%float, 0, 259200000); (0%float, 1, 345600000);
                  (1%float, 2, 432000000); (1%float, 3, 518400000)])
    by (repeat constructor).
  destruct (first_match_is_best vee 3 1 1 _ _ Hs Hv Hr
              (1%float, 2, 432000000) eq_refl _ Hc) as [Hge Htie].
  split; [exact Hge |]. apply Htie; [| vm_compute; reflexivity].
  intros E. inversion E.
Defined.

(** ** Parameters outside the intended ones *)

(** X6. With [window = 0], a frame that is not empty and a [forward] below
    its length, the search raises [ValueError]: [iloc[-0:]] is the whole
    column, and [np.corrcoef] is given it together with an empty slice. *)
Theorem zero_window_raises_ValueError df forward top_n :
  df <> [] -> forward < Z.of_nat (length df) ->
  find_similar_patterns df 0 forward top_n = Raise ValueError.
Proof.
  intros Hne Hf. unfold find_similar_patterns, score_candidates, range.
  rewrite seqZ_cons by lia. cbn [score_loop]. unfold score_step.
  assert (Hpast : Iloc.slice (col_close df) 0 (0 + 0) = []).
  { rewrite IlocFacts.slice_in_range by lia. reflexivity. }
  assert (Hcur : Iloc.slice_from (col_close df) (- 0) = col_close df).
  { unfold Iloc.slice_from. change (- 0) with 0.
    rewrite IlocFacts.clamp_in_range by lia. reflexivity. }
  rewrite Hpast, Hcur. cbn [length Z.of_nat Z.ltb Z.compare].
  unfold Np.corrcoef01, col_close.
  destruct df as [|bar df]; [congruence | reflexivity].
Qed.

Lemma zero_window_raises_ValueError_witness :
  dip <> [] /\ 1 < Z.of_nat (length dip) /\
  find_similar_patterns dip 0 1 3 = Raise ValueError.
Proof.
  assert (Hne : dip <> []) by discriminate.
  split; [exact Hne |]. split; [vm_compute; reflexivity |].
  apply (zero_window_raises_ValueError dip 1 3 Hne). vm_compute. reflexivity.
Defined.

(** X7. A [window] longer than the frame yields the empty result whatever
    [forward] and [top_n] are, a negative [forward] included: the test
    [len(past) < window] skips every index. *)
Theorem long_window_returns_empty df window forward top_n :
  Z.of_nat (length df) < window ->
  find_similar_patterns df window forward top_n = Ok [].
Proof.
  intros Hw. unfold find_similar_patterns, score_candidates.
  rewrite score_loop_skips by exact Hw. reflexivity.
Qed.

Lemma long_window_returns_empty_witness :
  Z.of_nat (length dip) < 7 /\
  find_similar_patterns dip 7 (-4) 3 = Ok [].
Proof.
  split; [vm_compute; reflexivity |].
  apply long_window_returns_empty. vm_compute. reflexivity.
Defined.

(** X8. With a [window] between 1 and the length of the frame and a
    negative [forward], the search raises [IndexError]: the loop reaches the
    index [len(df) - window], whose window still fits, and looks the
    timestamp up one position past the end. *)
Theorem negative_forward_raises_IndexError df window forward top_n :
  0 < window <= Z.of_nat (length df) -> forward < 0 ->
  find_similar_patterns df window forward top_n = Raise IndexError.
Proof.
  intros Hw Hf. unfold find_similar_patterns, score_candidates, range.
  replace (Z.of_nat (length df) - window - forward)
    with ((Z.of_nat (length df) - window) + (- forward)) by lia.
  rewrite seqZ_app by lia. rewrite (seqZ_cons _ (- forward)) by lia.
  rewrite score_loop_app.
  destruct (score_loop_total df window
              (Iloc.slice_from (col_close df) (- window))
              (seqZ 0 (Z.of_nat (length df) - window)) [])
    as (new & -> & _).
  - apply IlocFacts.slice_from_tail_length. unfold col_close.
    rewrite length_map. lia.
  - apply Forall_seqZ. intros i Hi. lia.
  - lia.
  - simpl. unfold score_step.
    assert (Hlen : Z.of_nat (length (Iloc.slice (col_close df)
                     (0 + (Z.of_nat (length df) - window))
                     (0 + (Z.of_nat (length df) - window) + window))) = window).
    { apply IlocFacts.slice_length; [lia | lia |].
      unfold col_close. rewrite length_map. lia. }
    rewrite Hlen, Z.ltb_irrefl.
    unfold Np.corrcoef01.
    replace (Nat.eqb _ _) with true.
    2:{ symmetry. apply Nat.eqb_eq.
        pose proof (IlocFacts.slice_from_tail_length (col_close df) window) as Hc.
        unfold col_close in Hc at 1. rewrite length_map in Hc. lia. }
    simpl.
    replace (0 + (Z.of_nat (length df) - window) + window)
      with (Z.of_nat (length df)) by lia.
    unfold Iloc.get, col_timestamp. rewrite length_map.
    destruct (Z.ltb_spec (Z.of_nat (length df)) 0); [lia |].
    rewrite Z.ltb_irrefl, andb_false_r. reflexivity.
Qed.

Lemma negative_forward_raises_IndexError_witness :
  0 < 3 <= Z.of_nat (length dip) /\ -2 < 0 /\
  find_similar_patterns dip 3 (-2) 3 = Raise IndexError.
Proof.
  assert (Hw : 0 < 3 <= Z.of_nat (length dip))
    by (vm_compute; split; [reflexivity | discriminate]).
  split; [exact Hw |]. split; [lia |].
  apply (negative_forward_raises_IndexError dip 3 (-2) 3 Hw). lia.
Defined.

(** X9. Raising [top_n] only appends matches: for [1 <= n <= n'] the result
    for [n] is the first [n] matches of the result for [n']. *)
Theorem larger_top_n_extends df window forward n n' results results' :
  1 <= n <= n' ->
  find_similar_patterns df window forward n = Ok results ->
  find_similar_patterns df window forward n' = Ok results' ->
  results = take (Z.to_nat n) results'.
Proof.
  intros Hn H H'.
  apply find_similar_patterns_Ok in H as (sims & Hs & H).
  rewrite (find_similar_patterns_scored _ _ _ _ _ Hs) in H'.
  apply (select_loop_prefix n n' _ ∅ [] _ _) with (3 := H) (4 := H');
    simpl; lia.
Qed.

Lemma larger_top_n_extends_witness :
  1 <= 2 <= 5 /\
  find_similar_patterns vee_half_daily 3 1 2 =
    Ok [(1%float, 2, 216000000); (1%float, 3, 259200000)] /\
  find_similar_patterns vee_half_daily 3 1 5 =
    Ok [(1%float, 2, 216000000); (1%float, 3, 259200000);
        ((-1)%float, 0, 129600000)] /\
  [(1%float, 2, 216000000); (1%float, 3, 259200000)] =
    take (Z.to_nat 2)
      [(1%float, 2, 216000000); (1%float, 3, 259200000);
       ((-1)%float, 0, 129600000)].
Proof.
  split; [lia |].
  split; [vm_compute; reflexivity |]. split; [vm_compute; reflexivity |].
  apply (larger_top_n_extends vee_half_daily 3 1 2 5); [lia | |];
    vm_compute; reflexivity.
Defined.

(** X10. When fewer than [top_n] matches are returned, every calendar day on
    which a candidate is anchored has its match in the result. *)
Theorem every_day_gets_a_match df window forward top_n similarities results :
  score_candidates df window forward = Ok similarities ->
  find_similar_patterns df window forward top_n = Ok results ->
  Z.of_nat (length results) < top_n ->
  forall c, c ∈ similarities -> exists m, m ∈ results /\ cand_day m = cand_day c.
Proof.
  intros Hs H Hlt c Hc.
  pose proof (results_all_days _ _ _ _ _ _ Hs H Hlt c Hc) as Hd.
  apply list_elem_of_fmap in Hd as (m & Hday & Hm).
  exists m. split; [exact Hm | symmetry; exact Hday].
Qed.

Lemma every_day_gets_a_match_witness :
  score_candidates vee_half_daily 3 1 =
    Ok [((-1)%float, 0, 129600000); (0%float, 1, 172800000);
        (1%float, 2, 216000000); (1%float, 3, 259200000)] /\
  find_similar_patterns vee_half_daily 3 1 5 =
    Ok [(1%float, 2, 216000000); (1%float, 3, 259200000);
        ((-1)%float, 0, 129600000)] /\
  Z.of_nat (length [(1%float, 2, 216000000); (1%float, 3, 259200000);
                    ((-1)%float, 0, 129600000)]) < 5 /\
  exists m,
    m ∈ [(1%float, 2, 216000000); (1%float, 3, 259200000);
         ((-1)%float, 0, 129600000)] /\
    cand_day m = cand_day (0%float, 1, 172800000).
Proof.
  assert (Hs : score_candidates vee_half_daily 3 1 =
    Ok [((-1)%float, 0, 129600000); (0%float, 1, 172800000);
        (1%float, 2, 216000000); (1%float, 3, 259200000)])
    by (vm_compute; reflexivity).
  assert (Hr : find_similar_patterns vee_half_daily 3 1 5 =
    Ok [(1%float, 2, 216000000); (1%float, 3, 259200000);
        ((-1)%float, 0, 129600000)])
    by (vm_compute; reflexivity).
  split; [exact Hs |]. split; [exact Hr |].
  split; [vm_compute; reflexivity |].
  apply (every_day_gets_a_match vee_half_daily 3 1 5 _ _ Hs Hr).
  - vm_compute. reflexivity.
  - apply elem_of_cons. right. apply elem_of_cons. left. reflexivity.
Defined.

(** ** The figure *)

Lemma length_arange a b : Z.of_nat (length (arange a b)) = Z.max 0 (b - a).
Proof. unfold arange. rewrite length_seqZ. lia. Qed.

(** The index into [colors] is always within the list. *)
Lemma color_lookup (i : nat) :
  exists color,
    Iloc.get colors (Z.of_nat i mod Z.of_nat (length colors)) = Ok color /\
    colors !! (i mod 6)%nat = Some color.
Proof.
  destruct (IlocFacts.get_in_range colors
              (Z.of_nat i mod Z.of_nat (length colors))) as (color & Hg & Hl).
  { apply Z.mod_pos_bound. simpl. lia. }
  exists color. split; [exact Hg |].
  replace (i mod 6)%nat
    with (Z.to_nat (Z.of_nat i mod Z.of_nat (length colors))); [exact Hl |].
  simpl length. change (Z.of_nat 6) with 6.
  rewrite <- (Nat2Z.id (i mod 6)), Nat2Z.inj_mod. reflexivity.
Qed.

(** The trace of a match, when [strftime] has given its day. *)
Lemma pattern_trace_Ok df window forward i c t :
  pattern_trace df window forward i c = Ok t ->
  exists color,
    colors !! (i mod 6)%nat = Some color /\
    t = mkTrace (arange (- window) forward)
          (Iloc.slice (col_close df) (cand_idx c)
             (cand_idx c + window + forward))
          ("PATTERN " +:+ pretty (i + 1)%nat +:+ " (" +:+ cand_day c +:+ ")")
          color 1 (Some "dot").
Proof.
  unfold pattern_trace. intros H.
  destruct (Strftime.strftime (cand_ts c)) as [day|e] eqn:Hd;
    cbn [py_bind] in H; [| discriminate].
  apply strftime_Ok in Hd as [-> _].
  destruct (color_lookup i) as (color & Hg & Hl).
  rewrite Hg in H. cbn [py_bind] in H. injection H as <-.
  exists color. split; [exact Hl | reflexivity].
Qed.

(** The loop over the matches leaves one trace per match, in order. *)
Lemma trace_loop_Ok df window forward patterns : forall pattern_traces i out,
  trace_loop df window forward pattern_traces i patterns = Ok out ->
  exists traces,
    out = pattern_traces ++ traces /\
    length traces = length patterns /\
    forall k c, patterns !! k = Some c ->
      exists t, traces !! k = Some t /\
        pattern_trace df window forward (i + k) c = Ok t.
Proof.
  induction patterns as [|c rest IH]; intros acc i out H; simpl in H.
  - injection H as <-. exists []. rewrite app_nil_r. repeat split.
    intros k c Hk. rewrite lookup_nil in Hk. discriminate.
  - destruct (pattern_trace df window forward i c) as [t|e] eqn:E;
      simpl in H; [| discriminate].
    apply IH in H as (traces & -> & Hlen & Hk).
    exists (t :: traces). rewrite <- app_assoc. split; [reflexivity |].
    split; [simpl; rewrite Hlen; reflexivity |].
    intros [|k] c' Hc'; simpl in Hc'.
    + injection Hc' as <-. exists t. split; [reflexivity |].
      rewrite Nat.add_0_r. exact E.
    + destruct (Hk k c' Hc') as (t' & Ht' & Hp). exists t'.
      split; [exact Ht' |]. rewrite Nat.add_succ_r. exact Hp.
Qed.

Section dashboard_facts.
Context (exchange_fetch_ohlcv : string -> string -> Z -> list Ohlcv).
Local Abbreviation fetch := (fetch_ohlcv exchange_fetch_ohlcv).
Local Abbreviation figure := (create_figure exchange_fetch_ohlcv).

(** What [create_figure] returns, in terms of the matches found. *)
Lemma create_figure_Ok symbol timeframe limit top_n fig :
  figure symbol timeframe limit top_n = Ok fig ->
  exists patterns traces,
    find_similar_patterns (fetch symbol timeframe limit) 150 60 top_n
      = Ok patterns /\
    fig =
      mkFigure
        (mkTrace (arange (- 150) 60)
           (Iloc.slice_from (col_close (fetch symbol timeframe limit))
              (- 150 - 60))
           "CURRENT" "white" 2 None :: traces)
        (symbol +:+ " " +:+ timeframe +:+ " PATTERN ANALYSIS") /\
    length traces = length patterns /\
    forall k c, patterns !! k = Some c ->
      exists t, traces !! k = Some t /\
        pattern_trace (fetch symbol timeframe limit) 150 60 k c = Ok t.
Proof.
  unfold create_figure. cbv zeta. intros H.
  destruct (find_similar_patterns (fetch symbol timeframe limit) 150 60 top_n)
    as [patterns|e] eqn:Hp; simpl in H; [| discriminate].
  destruct (trace_loop (fetch symbol timeframe limit) 150 60 [] 0 patterns)
    as [out|e] eqn:Ht; simpl in H; [| discriminate].
  injection H as <-.
  apply trace_loop_Ok in Ht as (traces & -> & Hlen & Hk).
  exists patterns, traces. split; [reflexivity |]. split; [reflexivity |].
  split; [exact Hlen | exact Hk].
Qed.

(** X11. Whatever rows the exchange delivers and whatever [top_n], a figure
    that [update_chart] returns has one trace for the current window
    followed by one trace per match found with [window = 150] and
    [forward = 60], hence [1 + top_n] traces at most when [top_n >= 1],
    under the title made of the symbol and the timeframe. *)
Theorem update_chart_figure coin timeframe max_bars top_n fig :
  update_chart exchange_fetch_ohlcv coin timeframe max_bars top_n = Ok fig ->
  exists patterns,
    find_similar_patterns (fetch coin timeframe max_bars) 150 60 top_n
      = Ok patterns /\
    length (fig_data fig) = S (length patterns) /\
    (1 <= top_n -> Z.of_nat (length (fig_data fig)) <= 1 + top_n) /\
    fig_title fig = coin +:+ " " +:+ timeframe +:+ " PATTERN ANALYSIS".
Proof.
  intros Hfig.
  destruct (create_figure_Ok coin timeframe max_bars top_n fig Hfig)
    as (patterns & traces & Hp & -> & Hlen & _).
  exists patterns. split; [exact Hp |].
  simpl. rewrite Hlen. split; [reflexivity |]. split; [| reflexivity].
  intros Hn. pose proof (results_bounded _ _ _ _ _ Hn Hp). lia.
Qed.

(** X12. The first trace of a figure that [create_figure] returns is
    "CURRENT": its x axis is the 210 positions -150 .. 59, and its y axis
    holds the last 210 closing prices of the frame, or all of them when the
    exchange has delivered fewer: the two axes have the same length exactly
    when at least 210 rows were delivered. *)
Theorem current_trace_points symbol timeframe limit top_n fig :
  figure symbol timeframe limit top_n = Ok fig ->
  exists t,
    fig_data fig !! 0%nat = Some t /\
    trace_name t = "CURRENT" /\
    trace_x t = arange (- 150) 60 /\
    length (trace_x t) = 210%nat /\
    trace_y t =
      drop (length (fetch symbol timeframe limit) - 210)
        (col_close (fetch symbol timeframe limit)) /\
    length (trace_y t) =
      Nat.min 210 (length (exchange_fetch_ohlcv symbol timeframe limit)) /\
    (length (trace_y t) = length (trace_x t) <->
     (210 <= length (exchange_fetch_ohlcv symbol timeframe limit))%nat).
Proof.
  intros Hfig.
  destruct (create_figure_Ok symbol timeframe limit top_n fig Hfig)
    as (patterns & traces & _ & -> & _).
  eexists. split; [reflexivity |].
  split; [reflexivity |]. split; [reflexivity |]. split; [reflexivity |].
  cbn [trace_y trace_x].
  assert (Hy : Iloc.slice_from (col_close (fetch symbol timeframe limit))
                 (- 150 - 60) =
               drop (length (fetch symbol timeframe limit) - 210)
                 (col_close (fetch symbol timeframe limit))).
  { unfold Iloc.slice_from, Iloc.clamp. change (- 150 - 60 <? 0) with true.
    cbv iota. f_equal. unfold col_close. rewrite length_map.
    generalize (length (fetch symbol timeframe limit)). intros n.
    destruct (Z.max_spec (-150 - 60 + Z.of_nat n) 0) as [[? ->] | [? ->]].
    all: lia. }
  assert (Hlen : length (Iloc.slice_from
                   (col_close (fetch symbol timeframe limit)) (- 150 - 60)) =
                 Nat.min 210
                   (length (exchange_fetch_ohlcv symbol timeframe limit))).
  { rewrite Hy, length_drop.
    unfold col_close, fetch_ohlcv. rewrite !length_map. lia. }
  split; [exact Hy |]. split; [exact Hlen |].
  rewrite Hlen.
  change (length (arange (- 150) 60)) with 210%nat. lia.
Qed.

(** X13. The trace at position [k + 1] of the figure draws the match at
    position [k]: its y axis holds exactly 210 closing prices, those from
    the match's start index on, as many as its x axis -150 .. 59 has
    positions (the continuation after a match never runs past the frame),
    and its name is "PATTERN", the rank [k + 1] and the match's day. *)
Theorem pattern_trace_points symbol timeframe limit top_n fig k t :
  figure symbol timeframe limit top_n = Ok fig ->
  fig_data fig !! S k = Some t ->
  exists patterns m,
    find_similar_patterns (fetch symbol timeframe limit) 150 60 top_n
      = Ok patterns /\
    patterns !! k = Some m /\
    trace_y t =
      take 210 (drop (Z.to_nat (cand_idx m))
                  (col_close (fetch symbol timeframe limit))) /\
    length (trace_y t) = 210%nat /\
    trace_x t = arange (- 150) 60 /\
    length (trace_x t) = 210%nat /\
    trace_name t =
      "PATTERN " +:+ pretty (k + 1)%nat +:+ " (" +:+ cand_day m +:+ ")".
Proof.
  intros Hfig Ht.
  destruct (create_figure_Ok symbol timeframe limit top_n fig Hfig)
    as (patterns & traces & Hp & -> & Hlen & Hk).
  simpl in Ht.
  destruct (lookup_lt_is_Some_2 patterns k) as [m Hm].
  { rewrite <- Hlen. eapply lookup_lt_Some, Ht. }
  destruct (Hk k m Hm) as (t' & Ht' & Htr). rewrite Ht in Ht'.
  injection Ht' as <-.
  destruct (pattern_trace_Ok _ _ _ _ _ _ Htr) as (color & _ & ->).
  destruct (results_scored _ _ _ _ _ Hp m (list_elem_of_lookup_2 _ _ _ Hm))
    as [Hidx _].
  assert (Hy : Iloc.slice (col_close (fetch symbol timeframe limit))
                 (cand_idx m) (cand_idx m + 150 + 60) =
               take 210 (drop (Z.to_nat (cand_idx m))
                           (col_close (fetch symbol timeframe limit)))).
  { replace (cand_idx m + 150 + 60) with (cand_idx m + 210) by lia.
    rewrite IlocFacts.slice_in_range; [reflexivity | lia | lia |].
    unfold col_close. rewrite length_map. lia. }
  exists patterns, m. split; [exact Hp |]. split; [exact Hm |]. simpl.
  split; [exact Hy |]. split.
  - rewrite Hy, length_take, length_drop. unfold col_close.
    rewrite length_map. lia.
  - repeat split; reflexivity.
Qed.

(** X14. The trace of the match at position [k] is drawn in the colour at
    position [k mod 6] of [colors]; the lookup never fails, and with more
    than six matches the colours repeat: the match at position [k + 6] has
    the colour of the match at position [k]. *)
Theorem pattern_colors_cycle symbol timeframe limit top_n fig k t :
  figure symbol timeframe limit top_n = Ok fig ->
  fig_data fig !! S k = Some t ->
  colors !! (k mod 6)%nat = Some (line_color t) /\
  forall t', fig_data fig !! S (k + 6) = Some t' ->
    line_color t' = line_color t.
Proof.
  intros Hfig Ht.
  destruct (create_figure_Ok symbol timeframe limit top_n fig Hfig)
    as (patterns & traces & Hp & -> & Hlen & Hk).
  simpl in Ht.
  assert (Hcol : forall j u, traces !! j = Some u ->
                   colors !! (j mod 6)%nat = Some (line_color u)).
  { intros j u Hu.
    destruct (lookup_lt_is_Some_2 patterns j) as [m Hm].
    { rewrite <- Hlen. eapply lookup_lt_Some, Hu. }
    destruct (Hk j m Hm) as (u' & Hu' & Htr). rewrite Hu in Hu'.
    injection Hu' as <-.
    destruct (pattern_trace_Ok _ _ _ _ _ _ Htr) as (color & Hc & ->).
    exact Hc. }
  split; [apply Hcol, Ht |].
  intros t' Ht'. simpl in Ht'.
  pose proof (Hcol k t Ht) as H1. pose proof (Hcol (k + 6)%nat t' Ht') as H2.
  replace ((k + 6) mod 6)%nat with (k mod 6)%nat in H2.
  - congruence.
  - rewrite <- (Nat.Div0.add_mod_idemp_r k 6 6). rewrite Nat.Div0.mod_same.
    rewrite Nat.add_0_r. reflexivity.
Qed.
End dashboard_facts.

Lemma update_chart_figure_witness :
  exists fig,
    update_chart wave_exchange "BTC/USDT" "1m" 1000 10 = Ok fig /\
    length (fig_data fig) = 11%nat /\
    fig_title fig = "BTC/USDT 1m PATTERN ANALYSIS".
Proof.
  assert (H : exists fig,
            update_chart wave_exchange "BTC/USDT" "1m" 1000 10 = Ok fig /\
            length (fig_data fig) = 11%nat).
  { eexists. split; vm_compute; reflexivity. }
  destruct H as (fig & Hfig & Hlen).
  exists fig. split; [exact Hfig |]. split; [exact Hlen |].
  destruct (update_chart_figure wave_exchange "BTC/USDT" "1m" 1000 10 fig Hfig)
    as (patterns & _ & _ & _ & Htitle).
  exact Htitle.
Defined.

Lemma current_trace_points_witness :
  exists fig t,
    create_figure wave_exchange "BTC/USDT" "1m" 1000 10 = Ok fig /\
    fig_data fig !! 0%nat = Some t /\
    trace_name t = "CURRENT" /\
    length (trace_y t) = length (trace_x t).
Proof.
  assert (H : exists fig,
            create_figure wave_exchange "BTC/USDT" "1m" 1000 10 = Ok fig).
  { eexists. vm_compute. reflexivity. }
  destruct H as (fig & Hfig).
  destruct (current_trace_points wave_exchange "BTC/USDT" "1m" 1000 10 fig Hfig)
    as (t & Ht & Hname & _ & _ & _ & _ & Hsame).
  exists fig, t. split; [exact Hfig |]. split; [exact Ht |].
  split; [exact Hname |]. apply Hsame, Nat.leb_le. vm_compute. reflexivity.
Defined.

Lemma pattern_trace_points_witness :
  exists fig t,
    create_figure wave_exchange "BTC/USDT" "1m" 1000 10 = Ok fig /\
    fig_data fig !! 1%nat = Some t /\
    length (trace_y t) = 210%nat /\
    length (trace_x t) = 210%nat.
Proof.
  assert (H : exists fig,
            create_figure wave_exchange "BTC/USDT" "1m" 1000 10 = Ok fig /\
            exists t, fig_data fig !! 1%nat = Some t).
  { eexists. split; [vm_compute; reflexivity |].
    eexists. vm_compute. reflexivity. }
  destruct H as (fig & Hfig & t & Ht).
  exists fig, t. split; [exact Hfig |]. split; [exact Ht |].
  destruct (pattern_trace_points wave_exchange "BTC/USDT" "1m" 1000 10
              fig 0 t Hfig Ht)
    as (patterns & m & _ & _ & _ & Hy & _ & Hx & _).
  split; [exact Hy | exact Hx].
Defined.

Lemma pattern_colors_cycle_witness :
  exists fig t t',
    create_figure wave_exchange "BTC/USDT" "1m" 1000 10 = Ok fig /\
    fig_data fig !! 1%nat = Some t /\
    fig_data fig !! 7%nat = Some t' /\
    colors !! 0%nat = Some (line_color t) /\
    line_color t' = line_color t.
Proof.
  assert (H : exists fig,
            create_figure wave_exchange "BTC/USDT" "1m" 1000 10 = Ok fig /\
            exists t t', fig_data fig !! 1%nat = Some t /\
                         fig_data fig !! 7%nat = Some t').
  { eexists. split; [vm_compute; reflexivity |].
    eexists. eexists. split; vm_compute; reflexivity. }
  destruct H as (fig & Hfig & t & t' & Ht & Ht').
  exists fig, t, t'. split; [exact Hfig |]. split; [exact Ht |].
  split; [exact Ht' |].
  destruct (pattern_colors_cycle wave_exchange "BTC/USDT" "1m" 1000 10
              fig 0 t Hfig Ht) as [Hc Hsame].
  split; [exact Hc | apply Hsame, Ht'].
Defined.
